(** * Granola MCP server: document source adapter and remote API source

    Shallow embedding of
    - [sources/adapter.py]: [DocumentSourceAdapter.load_cache],
      [get_meetings], [reload], [get_meeting_by_id], [get_cache_info] and
      [refresh_cache];
    - [sources/remote_api.py]: [RemoteApiDocumentSource._fetch_from_api],
      [_get_cache_key], [_get_cache_path], [_is_cache_fresh], [_read_cache],
      [_write_cache], [get_documents], [get_all_documents] and
      [refresh_cache].

    Modelling conventions.
    - JSON values as [json]; a Python dict decoded from JSON is an association
      list in insertion order with unique keys, so [dict.get] is the first
      match.
    - Python strings are Rocq [string]s (byte strings); [<] on [str] is
      lexicographic, [String.compare] here.
    - JSON numbers are integers ([Z]).
    - [str(x)] of a list or dict is Python's [repr]; its text is not needed by
      any property below, so it is the section parameter [repr_composite] and
      every theorem holds for every choice of it. *)

From Stdlib Require Import String Ascii ZArith List Bool Lia.
From Stdlib Require Import Sorting.Sorted Sorting.Permutation.
Import ListNotations.
Open Scope string_scope.
#[local] Set Warnings "-register-all".

Inductive json : Type :=
| JNull
| JBool (b : bool)
| JNum (n : Z)
| JStr (s : string)
| JArr (l : list json)
| JObj (o : list (string * json)).

(** ** Python semantics of the operations used on decoded JSON *)

(** [bool(v)]: Python truthiness. *)
Definition truthy (v : json) : bool :=
  match v with
  | JNull => false
  | JBool b => b
  | JNum n => negb (n =? 0)%Z
  | JStr s => negb (String.eqb s "")
  | JArr l => match l with [] => false | _ => true end
  | JObj o => match o with [] => false | _ => true end
  end.

(** [a or b] *)
Definition py_or (a b : json) : json := if truthy a then a else b.

(** [d.get(k, default)] on a dict *)
Fixpoint dget_default (k : string) (o : list (string * json)) (default : json)
  : json :=
  match o with
  | [] => default
  | (k', v) :: r => if String.eqb k k' then v else dget_default k r default
  end.

(** [d.get(k)] *)
Definition dget (k : string) (o : list (string * json)) : json :=
  dget_default k o JNull.

(** [v == "s"] for a JSON value [v] and a Python [str]. *)
Definition eq_str (v : json) (s : string) : bool :=
  match v with JStr s' => String.eqb s' s | _ => false end.

(** [v in xs] for a list of Python [str]s. *)
Definition in_strs (v : json) (xs : list string) : bool :=
  existsb (eq_str v) xs.

(** Decimal text of an integer, as [str(n)]. *)
Fixpoint digits_of (fuel : nat) (n : Z) (acc : string) : string :=
  match fuel with
  | O => acc
  | S f =>
      let d := Z.modulo n 10 in
      let c := ascii_of_nat (48 + Z.to_nat d) in
      if (n <? 10)%Z then String c acc
      else digits_of f (Z.div n 10) (String c acc)
  end.

Definition dec_of_Z (n : Z) : string :=
  if (n <? 0)%Z
  then String "-" (digits_of (S (Z.to_nat (Z.log2 (- n)))) (- n) "")
  else digits_of (S (Z.to_nat (Z.log2 n))) n "".

Section Model.

(** [str(v)] for a list or dict value (Python's [repr]). *)
Variable repr_composite : json -> string.

(** [str(v)] *)
Definition py_str (v : json) : string :=
  match v with
  | JNull => "None"
  | JBool true => "True"
  | JBool false => "False"
  | JNum n => dec_of_Z n
  | JStr s => s
  | JArr _ | JObj _ => repr_composite v
  end.

(** ** [DocumentSourceAdapter] *)

(** The in-memory cache built by [load_cache]: the [state] object. *)
Record Snapshot := {
  documents : list (string * json);
  meetingsMetadata : list (string * json);
  documentPanels : list (string * json);
  documentLists : list (string * json);
  documentListsMetadata : list (string * json)
}.

(** [d[k] = v] on a Python dict: an existing key keeps its position. *)
Fixpoint dict_set (k : string) (v : json) (d : list (string * json))
  : list (string * json) :=
  match d with
  | [] => [(k, v)]
  | (k', v') :: r =>
      if String.eqb k k' then (k', v) :: r else (k', v') :: dict_set k v r
  end.

(** The loop of [load_cache] over the fetched documents. *)
Fixpoint index_docs (docs : list json) (acc : list (string * json))
  : list (string * json) :=
  match docs with
  | [] => acc
  | doc :: rest =>
      match doc with
      | JObj o =>
          let doc_id := dget "id" o in
          if truthy doc_id
          then index_docs rest (dict_set (py_str doc_id) doc acc)
          else index_docs rest acc
      | _ => index_docs rest acc
      end
  end.

(** [load_cache] once the documents are fetched from the source. *)
Definition load_cache (docs : list json) : Snapshot := {|
  documents := index_docs docs [];
  meetingsMetadata := [];
  documentPanels := [];
  documentLists := [];
  documentListsMetadata := []
|}.

(** [MeetingDict] as built by [get_meetings]. *)
Record Meeting := {
  m_id : string;
  m_title : json;
  m_start_ts : string;
  m_end_ts : option string;
  m_participants : list string;
  m_platform : option string;
  m_notes : option string;
  m_overview : option string;
  m_summary : option string;
  m_folder_id : option string;
  m_folder_name : option string
}.

(** [name or email] of a person record. *)
Definition name_or_email (o : list (string * json)) : json :=
  py_or (dget "name" o) (dget "email" o).

(** The attendee loop. *)
Fixpoint add_attendees (atts : list json) (participants : list string)
  : list string :=
  match atts with
  | [] => participants
  | att :: rest =>
      match att with
      | JObj a =>
          let att_name := name_or_email a in
          if truthy att_name && negb (in_strs att_name participants)
          then add_attendees rest (participants ++ [py_str att_name])
          else add_attendees rest participants
      | _ => add_attendees rest participants
      end
  end.

(** Participants extraction from the [people] field. *)
Definition extract_participants (people : json) : list string :=
  match people with
  | JObj p =>
      let participants :=
        match dget_default "creator" p (JObj []) with
        | JObj c =>
            let creator_name := name_or_email c in
            if truthy creator_name then [py_str creator_name] else []
        | _ => []
        end in
      match dget_default "attendees" p (JArr []) with
      | JArr atts => add_attendees atts participants
      | _ => participants
      end
  | _ => []
  end.

Definition str_field (v : json) : option string :=
  match v with JStr s => Some s | _ => None end.

(** [notes = notes_plain or notes_markdown or notes], then the dict guard and
    the [isinstance(notes, str)] test. *)
Definition extract_notes (o : list (string * json)) : option string :=
  let notes :=
    py_or (py_or (dget "notes_plain" o) (dget "notes_markdown" o))
          (dget "notes" o) in
  let notes := match notes with JObj _ => JNull | v => v end in
  str_field notes.

(** [created_at or start_ts or ""], coerced with [str]. *)
Definition extract_start_ts (o : list (string * json)) : string :=
  let v := py_or (py_or (dget "created_at" o) (dget "start_ts" o)) (JStr "") in
  match v with
  | JStr s => s
  | _ => if truthy v then py_str v else ""
  end.

(** The type filter: [if doc_type and doc_type != "meeting": continue]. *)
Definition skipped_by_type (o : list (string * json)) : bool :=
  let doc_type := dget "type" o in
  truthy doc_type && negb (eq_str doc_type "meeting").

(** Body of the loop of [get_meetings] for one [(doc_key, doc)] entry;
    [None] is [continue]. *)
Definition normalize (doc_key : string) (doc : json) : option Meeting :=
  match doc with
  | JObj o =>
      if skipped_by_type o then None
      else Some {|
        m_id := py_str (py_or (dget "id" o) (JStr doc_key));
        m_title := py_or (dget "title" o) (JStr "Untitled Meeting");
        m_start_ts := extract_start_ts o;
        m_end_ts := None;
        m_participants := extract_participants (dget "people" o);
        m_platform := None;
        m_notes := extract_notes o;
        m_overview := str_field (dget "overview" o);
        m_summary := str_field (dget "summary" o);
        m_folder_id := None;
        m_folder_name := None
      |}
  | _ => None
  end.

Fixpoint collect (docs : list (string * json)) : list Meeting :=
  match docs with
  | [] => []
  | (k, d) :: rest =>
      match normalize k d with
      | Some m => m :: collect rest
      | None => collect rest
      end
  end.

(** [meetings.sort(key=lambda x: x.get("start_ts") or "", reverse=True)]:
    Python's sort is stable also with [reverse=True], so meetings with equal
    keys keep their relative order.  Insertion sort: an element goes before
    the first element whose key is not greater than its own. *)
Definition sort_key (m : Meeting) : string := m_start_ts m.

Fixpoint insert_desc (m : Meeting) (l : list Meeting) : list Meeting :=
  match l with
  | [] => [m]
  | m' :: r =>
      if String.leb (sort_key m') (sort_key m) then m :: m' :: r
      else m' :: insert_desc m r
  end.

Fixpoint sort_desc (l : list Meeting) : list Meeting :=
  match l with
  | [] => []
  | m :: r => insert_desc m (sort_desc r)
  end.

Definition get_meetings (snap : Snapshot) : list Meeting :=
  sort_desc (collect (documents snap)).

End Model.

(** ** [RemoteApiDocumentSource] *)

Module Remote.

(** What one [request.urlopen(req, timeout=30)] call produces. *)
Inductive Response : Type :=
| RespBody (parsed : option json)
    (** the call returned; the body (gunzipped when it is gzip data, else
        as read) decoded as UTF-8 JSON, [None] when decoding or parsing
        fails *)
| RespHTTPError (code : Z) (body : string)
| RespURLError
| RespOtherError.

(** The raise sites of [_fetch_from_api] and [get_documents]. *)
Inductive Msg : Type :=
| MsgInvalidToken | MsgForbidden | MsgRateLimit | MsgServerError (code : Z)
| MsgHttpError (code : Z) | MsgNetwork | MsgUnexpected | MsgMaxRetries
| MsgInvalidFormat.

(** Python exceptions leaving the source: the class and its payload. *)
Inductive PyExc : Type :=
| GranolaParseError (msg : Msg) (details : list (string * json))
| AttributeError.

Inductive outcome (A : Type) : Type :=
| Ret (a : A)
| Exc (e : PyExc).
Arguments Ret {A} a.
Arguments Exc {A} e.

(** Observable effects: one HTTP request, or a [time.sleep]. *)
Inductive Event : Type :=
| Urlopen (attempt : Z)
| Sleep (seconds : Z).

Definition max_retries : Z := 3.

(** [range(max_retries)] *)
Fixpoint range_from (start : Z) (n : nat) : list Z :=
  match n with
  | O => []
  | S n' => start :: range_from (start + 1) n'
  end.

(** The retry loop; [resp attempt] is what the [attempt]-th [urlopen]
    produces. *)
Fixpoint fetch_loop (resp : Z -> Response) (attempts : list Z)
  : outcome json * list Event :=
  match attempts with
  | [] => (Exc (GranolaParseError MsgMaxRetries []), [])
  | attempt :: more =>
      let retry_or (e : PyExc) :=
        if (attempt <? max_retries - 1)%Z
        then let '(r, evs) := fetch_loop resp more in
             (r, Urlopen attempt :: Sleep (2 ^ attempt) :: evs)
        else (Exc e, [Urlopen attempt]) in
      match resp attempt with
      | RespBody (Some data) => (Ret data, [Urlopen attempt])
      | RespBody None =>
          (* the GranolaParseError raised in the [with] block is caught by
             [except Exception] and re-raised as "Unexpected error" *)
          (Exc (GranolaParseError MsgUnexpected [("attempt", JNum (attempt + 1))]),
           [Urlopen attempt])
      | RespHTTPError code body =>
          if (code =? 401)%Z then
            (Exc (GranolaParseError MsgInvalidToken [("status", JNum 401)]),
             [Urlopen attempt])
          else if (code =? 403)%Z then
            (Exc (GranolaParseError MsgForbidden [("status", JNum 403)]),
             [Urlopen attempt])
          else if (code =? 429)%Z then
            retry_or (GranolaParseError MsgRateLimit
                        [("status", JNum 429); ("attempt", JNum (attempt + 1))])
          else if (500 <=? code)%Z && (code <? 600)%Z then
            retry_or (GranolaParseError (MsgServerError code)
                        [("status", JNum code); ("body", JStr body);
                         ("attempt", JNum (attempt + 1))])
          else
            (Exc (GranolaParseError (MsgHttpError code)
                    [("status", JNum code); ("body", JStr body)]),
             [Urlopen attempt])
      | RespURLError =>
          retry_or (GranolaParseError MsgNetwork [("attempt", JNum (attempt + 1))])
      | RespOtherError =>
          (Exc (GranolaParseError MsgUnexpected [("attempt", JNum (attempt + 1))]),
           [Urlopen attempt])
      end
  end.

Definition fetch_from_api (resp : Z -> Response) : outcome json * list Event :=
  fetch_loop resp (range_from 0 (Z.to_nat max_retries)).

(** A cache file: its modification time and what [json.load] gives for it
    ([None] when it does not parse). *)
Record CacheFile := {
  mtime : Z;
  contents : option json
}.

(** The cache directory: file name to file. *)
Definition FS := list (string * CacheFile).

Fixpoint fs_lookup (path : string) (fs : FS) : option CacheFile :=
  match fs with
  | [] => None
  | (p, f) :: r => if String.eqb path p then Some f else fs_lookup path r
  end.

Fixpoint fs_write (path : string) (f : CacheFile) (fs : FS) : FS :=
  match fs with
  | [] => [(path, f)]
  | (p, f') :: r =>
      if String.eqb path p then (p, f) :: r else (p, f') :: fs_write path f r
  end.

(** How [_write_cache] ends: written, [open] failed (file untouched), or the
    dump failed after [open] truncated the file. *)
Inductive WriteOutcome := WriteOk | WriteOpenFailed | WriteInterrupted.

Section Source.

(** [hashlib.sha256(params.encode()).hexdigest()[:16]] *)
Variable sha256_hex16 : string -> string.

(** [self.cache_ttl] *)
Variable cache_ttl : Z.

Definition py_bool_str (b : bool) : string := if b then "True" else "False".

Definition get_cache_key (limit offset : Z) (include_last_viewed_panel : bool)
  : string :=
  sha256_hex16 (dec_of_Z limit ++ ":" ++ dec_of_Z offset ++ ":" ++
                py_bool_str include_last_viewed_panel).

Definition get_cache_path (cache_key : string) : string :=
  "docs_" ++ cache_key ++ ".json".

(** [_is_cache_fresh] at clock [now]. *)
Definition is_cache_fresh (fs : FS) (now : Z) (cache_path : string) : bool :=
  match fs_lookup cache_path fs with
  | None => false
  | Some f => (now - mtime f <? cache_ttl)%Z
  end.

(** [_read_cache]: a file holding JSON [null] also gives [None]. *)
Definition read_cache (fs : FS) (cache_path : string) : option json :=
  match fs_lookup cache_path fs with
  | None => None
  | Some f => match contents f with Some JNull => None | c => c end
  end.

Definition write_cache (fs : FS) (now : Z) (cache_path : string) (data : json)
  (w : WriteOutcome) : FS :=
  match w with
  | WriteOk => fs_write cache_path {| mtime := now; contents := Some data |} fs
  | WriteOpenFailed => fs
  | WriteInterrupted => fs_write cache_path {| mtime := now; contents := None |} fs
  end.

(** [x or d] for an optional int argument. *)
Definition int_or (x : option Z) (d : Z) : Z :=
  match x with Some n => if (n =? 0)%Z then d else n | None => d end.

(** [data.get("docs", [])] checked to be a list. *)
Definition docs_of (data : json) : outcome (list json) :=
  match data with
  | JObj o =>
      match dget_default "docs" o (JArr []) with
      | JArr docs => Ret docs
      | _ => Exc (GranolaParseError MsgInvalidFormat [])
      end
  | _ => Exc AttributeError
  end.

(** The cache branch of [get_documents]: [Some] result when served from the
    cache file, [None] when the code goes on to fetch. *)
Definition cached_docs (fs : FS) (now : Z) (cache_path : string) (force : bool)
  : option (outcome (list json)) :=
  if negb force && is_cache_fresh fs now cache_path then
    match read_cache fs cache_path with
    | Some (JObj o) =>
        match dget_default "docs" o (JArr []) with
        | JArr docs => Some (Ret docs)
        | _ => None
        end
    | Some _ => Some (Exc AttributeError)   (* [cached.get] on a non-dict *)
    | None => None
    end
  else None.

(** The fetch branch: [_fetch_from_api], [_write_cache] (ending as [w]),
    then the [docs] check. *)
Definition fetch_and_store (fs : FS) (now : Z) (resp : Z -> Response)
  (w : WriteOutcome) (cache_path : string) : outcome (list json) * FS * list Event :=
  let '(r, evs) := fetch_from_api resp in
  match r with
  | Exc e => (Exc e, fs, evs)
  | Ret data =>
      let fs' := write_cache fs now cache_path data w in
      match docs_of data with
      | Ret docs => (Ret docs, fs', evs)
      | Exc e => (Exc e, fs', evs)
      end
  end.

(** [get_documents] at clock [now], with the HTTP responses [resp] and the
    outcome [w] of the cache write; returns the result, the new cache
    directory and the events. *)
Definition get_documents (fs : FS) (now : Z) (resp : Z -> Response)
  (w : WriteOutcome) (limit offset : option Z) (include_last_viewed_panel : bool)
  (force : bool) : outcome (list json) * FS * list Event :=
  let limit := int_or limit 100 in
  let offset := int_or offset 0 in
  let cache_path :=
    get_cache_path (get_cache_key limit offset include_last_viewed_panel) in
  match cached_docs fs now cache_path force with
  | Some r => (r, fs, [])
  | None => fetch_and_store fs now resp w cache_path
  end.

End Source.

Definition batch_size : Z := 100.

(** [get_all_documents]; [pages] are the results of the successive
    [get_documents] calls.  Returns the [(limit, offset)] of each call and
    [all_docs], or [None] when [pages] runs out before the loop ends. *)
Fixpoint all_documents_loop (pages : list (list json)) (offset : Z)
  : option (list (Z * Z) * list json) :=
  match pages with
  | [] => None
  | batch :: rest =>
      let call := (batch_size, offset) in
      match batch with
      | [] => Some ([call], [])
      | _ =>
          if (Z.of_nat (length batch) <? batch_size)%Z
          then Some ([call], batch)
          else match all_documents_loop rest (offset + batch_size) with
               | Some (calls, docs) => Some (call :: calls, (batch ++ docs)%list)
               | None => None
               end
      end
  end.

Definition get_all_documents (pages : list (list json))
  : option (list (Z * Z) * list json) :=
  all_documents_loop pages 0.

(** Responses after which the loop sleeps and retries (while attempts
    remain): 429, 5xx, and [URLError]. *)
Definition retryable (r : Response) : bool :=
  match r with
  | RespHTTPError code _ =>
      (code =? 429)%Z || ((500 <=? code)%Z && (code <? 600)%Z)
  | RespURLError => true
  | _ => false
  end.

(** [name] with the prefix [pre] removed, if it starts with it. *)
Fixpoint strip_prefix (pre name : string) : option string :=
  match pre, name with
  | EmptyString, _ => Some name
  | String c pre', String c' name' =>
      if Ascii.eqb c c' then strip_prefix pre' name' else None
  | String _ _, EmptyString => None
  end.

Fixpoint ends_with (suf s : string) : bool :=
  String.eqb s suf ||
  match s with EmptyString => false | String _ s' => ends_with suf s' end.

(** [fnmatch(name, "docs_*.json")] *)
Definition glob_docs_json (name : string) : bool :=
  match strip_prefix "docs_" name with
  | Some rest => ends_with ".json" rest
  | None => false
  end.

(** [refresh_cache]: unlink every [docs_*.json]; [unlink_ok name] is false
    when [cache_file.unlink()] raises (the exception is swallowed and the
    file stays). *)
Definition refresh_cache (fs : FS) (unlink_ok : string -> bool) : FS :=
  filter (fun e => negb (glob_docs_json (fst e) && unlink_ok (fst e))) fs.

(** *** Vocabulary of the properties *)

Definition count_urlopen (evs : list Event) : nat :=
  length (filter (fun e => match e with Urlopen _ => true | Sleep _ => false end) evs).

Definition rate_limited (resp : Z -> Response) (i : Z) : Prop :=
  exists body, resp i = RespHTTPError 429 body.

(** The cache file at [path] answers the request: it exists, is younger than
    the TTL, and holds a JSON object whose [docs] is absent or the list
    [docs]. *)
Definition cache_hit (ttl : Z) (fs : FS) (now : Z) (path : string)
  (docs : list json) : Prop :=
  exists f o, fs_lookup path fs = Some f /\ (now - mtime f < ttl)%Z /\
    contents f = Some (JObj o) /\ dget_default "docs" o (JArr []) = JArr docs.

(** The cache file at [path] cannot answer: it is missing, not younger than
    the TTL, unreadable, [null], or an object whose [docs] is not a list. *)
Definition cache_unusable (ttl : Z) (fs : FS) (now : Z) (path : string) : Prop :=
  fs_lookup path fs = None \/
  exists f, fs_lookup path fs = Some f /\
    ((ttl <= now - mtime f)%Z \/ contents f = None \/ contents f = Some JNull \/
     exists o, contents f = Some (JObj o) /\
               forall l, dget_default "docs" o (JArr []) <> JArr l).

Definition docs_path (sha : string -> string) (limit offset : option Z) (panel : bool)
  : string :=
  get_cache_path (get_cache_key sha (int_or limit 100) (int_or offset 0) panel).

(** A JSON service whose [docs] is not a list: stored in the cache, then
    rejected. *)
Definition resp_docs_not_list : Z -> Response :=
  fun _ => RespBody (Some (JObj [("docs", JNum 5)])).

End Remote.

(** ** Vocabulary of the adapter properties *)

(** [a] may precede [b] in the sorted result. *)
Definition desc (a b : Meeting) : Prop :=
  String.leb (sort_key b) (sort_key a) = true.

Definition same_key (k : string) (m : Meeting) : bool := String.eqb (sort_key m) k.

(** [k in d] then [d[k]], as an option. *)
Fixpoint dfind (k : string) (o : list (string * json)) : option json :=
  match o with
  | [] => None
  | (k', v) :: r => if String.eqb k k' then Some v else dfind k r
  end.

(** An entry of the document map built from [docs]: a dict from [docs] whose
    [id] is truthy and whose key is [str(id)]. *)
Definition entry_ok (rc : json -> string) (docs : list json) (kd : string * json) : Prop :=
  exists o, snd kd = JObj o /\ In (JObj o) docs /\
            truthy (dget "id" o) = true /\ py_str rc (dget "id" o) = fst kd.

(** The admission test of the loop body. *)
Definition admitted (kd : string * json) : bool :=
  match snd kd with JObj o => negb (skipped_by_type o) | _ => false end.

(** The type test as the spec words it: no [type] key, or a [type] that is
    falsy or equal to ["meeting"]. *)
Definition type_admitted (o : list (string * json)) : bool :=
  match dfind "type" o with
  | None => true
  | Some v => negb (truthy v) || eq_str v "meeting"
  end.

Definition entry_admitted (kd : string * json) : bool :=
  match snd kd with JObj o => type_admitted o | _ => false end.

(** Notes candidates in the order of the [or] chain. *)
Definition notes_candidates (o : list (string * json)) : list json :=
  [dget "notes_plain" o; dget "notes_markdown" o; dget "notes" o].

(** The value of [a or b or c]: the first truthy one of [a], [b], else [c]. *)
Definition or3 (a b c : json) : json :=
  match find truthy [a; b] with Some v => v | None => c end.

Definition has_id (d : json) : bool :=
  match d with JObj o => truthy (dget "id" o) | _ => false end.

(** ** [DocumentSourceAdapter] as an object *)

(** Calls the adapter makes on its [DocumentSource]. *)
Inductive SourceCall : Type :=
| CallGetAllDocuments (force : bool)
| CallGetDocuments (force : bool)
| CallRefreshCache.

(** The adapter's fields; [source_has_get_all] is
    [hasattr(self._source, 'get_all_documents')]. *)
Record Adapter := {
  source_has_get_all : bool;
  a_cache : option Snapshot;
  a_loaded_at : option Z
}.

Section AdapterObject.

Variable repr_composite : json -> string.

(** [datetime.isoformat()] of a load time. *)
Variable isoformat : Z -> string.

(** [load_cache(force_reload)] at clock [now]; [fetched] is what the source
    call returns or raises. *)
Definition adapter_load_cache (a : Adapter) (fetched : Remote.outcome (list json))
  (now : Z) (force_reload : bool)
  : Remote.outcome Snapshot * Adapter * list SourceCall :=
  match a_cache a, force_reload with
  | Some c, false => (Remote.Ret c, a, [])
  | _, _ =>
      let call := if source_has_get_all a then CallGetAllDocuments force_reload
                  else CallGetDocuments force_reload in
      match fetched with
      | Remote.Exc e => (Remote.Exc e, a, [call])
      | Remote.Ret docs =>
          let snap := load_cache repr_composite docs in
          (Remote.Ret snap,
           {| source_has_get_all := source_has_get_all a;
              a_cache := Some snap; a_loaded_at := Some now |},
           [call])
      end
  end.

Definition adapter_reload (a : Adapter) (fetched : Remote.outcome (list json)) (now : Z) :=
  adapter_load_cache a fetched now true.

Definition adapter_get_meetings (a : Adapter) (fetched : Remote.outcome (list json))
  (now : Z) : Remote.outcome (list Meeting) * Adapter * list SourceCall :=
  match adapter_load_cache a fetched now false with
  | (Remote.Ret snap, a', calls) => (Remote.Ret (get_meetings repr_composite snap), a', calls)
  | (Remote.Exc e, a', calls) => (Remote.Exc e, a', calls)
  end.

(** The loop of [get_meeting_by_id] over [get_meetings()]. *)
Definition meeting_by_id (snap : Snapshot) (meeting_id : string) : option Meeting :=
  find (fun m => String.eqb (m_id m) meeting_id) (get_meetings repr_composite snap).

Definition adapter_get_meeting_by_id (a : Adapter) (fetched : Remote.outcome (list json))
  (now : Z) (meeting_id : string)
  : Remote.outcome (option Meeting) * Adapter * list SourceCall :=
  match adapter_load_cache a fetched now false with
  | (Remote.Ret snap, a', calls) => (Remote.Ret (meeting_by_id snap meeting_id), a', calls)
  | (Remote.Exc e, a', calls) => (Remote.Exc e, a', calls)
  end.

(** [refresh_cache]; [r] is how [self._source.refresh_cache()] ends. *)
Definition adapter_refresh_cache (a : Adapter) (r : Remote.outcome unit)
  : Remote.outcome unit * Adapter * list SourceCall :=
  match r with
  | Remote.Exc e => (Remote.Exc e, a, [CallRefreshCache])
  | Remote.Ret _ =>
      (Remote.Ret tt,
       {| source_has_get_all := source_has_get_all a; a_cache := None; a_loaded_at := None |},
       [CallRefreshCache])
  end.

(** [get_cache_info] over the source's [info] dict. *)
Definition adapter_get_cache_info (a : Adapter) (info : list (string * json))
  : list (string * json) :=
  let info :=
    match a_loaded_at a with
    | Some t => dict_set "last_loaded_ts" (JStr (isoformat t)) info
    | None => info
    end in
  match a_cache a with
  | Some c =>
      dict_set "valid_structure" (JBool true)
        (dict_set "meeting_count" (JNum (Z.of_nat (length (documents c)))) info)
  | None => info
  end.

End AdapterObject.

(** The last fetched document that is a dict with a truthy [id] whose
    [str()] is [k]. *)
Definition last_with_key (rc : json -> string) (k : string) (docs : list json) : option json :=
  fold_left (fun acc d =>
    match d with
    | JObj o => if truthy (dget "id" o) && String.eqb (py_str rc (dget "id" o)) k
                then Some d else acc
    | _ => acc
    end) docs None.

(** A value for [repr_composite] used to evaluate the model on concrete
    documents that hold no list or dict where [str()] is applied. *)
Definition repr_any (_ : json) : string := "<repr>".

(** The document [e1] of the repository's test fixtures. *)
Definition doc_e1 : json :=
  JObj [("id", JStr "e1"); ("title", JStr "Test Meeting");
        ("created_at", JStr "2025-09-01T10:00:00Z");
        ("people", JArr [JObj [("name", JStr "Alice")]; JObj [("name", JStr "Bob")]]);
        ("notes_plain", JStr "Notes here"); ("type", JStr "meeting")].

(** A fresh adapter, and the adapter after loading [e1] at time 0. *)
Definition adapter_empty : Adapter :=
  {| source_has_get_all := true; a_cache := None; a_loaded_at := None |}.

Definition adapter_e1 : Adapter :=
  {| source_has_get_all := true; a_cache := Some (load_cache repr_any [doc_e1]);
     a_loaded_at := Some 0%Z |}.

(** A [people] object whose creator also appears among the attendees. *)
Definition people_creator_attends : list (string * json) :=
  [("creator", JObj [("name", JStr "Alice")]);
   ("attendees", JArr [JObj [("name", JStr "Alice")];
                       JObj [("email", JStr "bob@example.com")]; JNull])].

Example get_meetings_e1_ids :
  map m_id (get_meetings repr_any (load_cache repr_any [doc_e1])) = ["e1"].
Proof. reflexivity. Qed.

Example get_meetings_order_by_day :
  map m_id (get_meetings repr_any (load_cache repr_any
    [JObj [("id", JStr "e1"); ("created_at", JStr "2025-08-29T10:52:02Z")];
     JObj [("id", JStr "e2"); ("created_at", JStr "2025-08-30T10:00:00Z")];
     JObj [("id", JStr "e3")]])) = ["e2"; "e1"; "e3"].
Proof. reflexivity. Qed.

Example dec_of_Z_samples :
  map dec_of_Z [0; 7; 10; 100; 429; -15]%Z = ["0"; "7"; "10"; "100"; "429"; "-15"].
Proof. reflexivity. Qed.

(** ** Order on [str] *)

Lemma string_leb_trans (a b c : string) :
  String.leb a b = true -> String.leb b c = true -> String.leb a c = true.
Proof.
  revert b c. induction a as [|x a IH]; intros [|y b] [|z c]; unfold String.leb;
    simpl; try congruence.
  unfold Ascii.compare.
  destruct (N.compare_spec (N_of_ascii x) (N_of_ascii y));
  destruct (N.compare_spec (N_of_ascii y) (N_of_ascii z));
  destruct (N.compare_spec (N_of_ascii x) (N_of_ascii z));
    try lia; try congruence; exact (IH b c).
Qed.

Lemma string_compare_refl (a : string) : String.compare a a = Eq.
Proof.
  induction a as [|x a IH]; simpl; [reflexivity|].
  unfold Ascii.compare. rewrite N.compare_refl. exact IH.
Qed.

Lemma string_leb_refl (a : string) : String.leb a a = true.
Proof. unfold String.leb. rewrite string_compare_refl. reflexivity. Qed.

Lemma string_leb_false (a b : string) :
  String.leb a b = false -> String.leb b a = true.
Proof.
  intros H. destruct (String.leb_total a b) as [H'|H']; congruence.
Qed.

Lemma string_leb_empty (a : string) : String.leb a "" = true -> a = "".
Proof. destruct a; [reflexivity | unfold String.leb; simpl; discriminate]. Qed.

(** ** The stable descending sort *)

Section Sort.

Lemma insert_desc_perm (m : Meeting) (l : list Meeting) :
  Permutation (insert_desc m l) (m :: l).
Proof.
  induction l as [|m' r IH]; simpl; [reflexivity|].
  destruct (String.leb (sort_key m') (sort_key m)); [reflexivity|].
  rewrite IH. apply perm_swap.
Qed.

Lemma sort_desc_perm (l : list Meeting) : Permutation (sort_desc l) l.
Proof.
  induction l as [|m r IH]; simpl; [reflexivity|].
  rewrite insert_desc_perm. now apply perm_skip.
Qed.

Lemma insert_desc_sorted (m : Meeting) (l : list Meeting) :
  Sorted desc l -> Sorted desc (insert_desc m l).
Proof.
  induction l as [|m' r IH]; simpl; intros Hs; [auto|].
  destruct (String.leb (sort_key m') (sort_key m)) eqn:E.
  - constructor; [exact Hs | constructor; exact E].
  - apply string_leb_false in E.
    inversion Hs as [|? ? Hr Hhd]; subst.
    constructor; [now apply IH|].
    destruct r as [|m'' r']; simpl; [constructor; exact E|].
    inversion Hhd; subst.
    destruct (String.leb (sort_key m'') (sort_key m)); constructor; assumption.
Qed.

Lemma sort_desc_sorted (l : list Meeting) : Sorted desc (sort_desc l).
Proof.
  induction l as [|m r IH]; simpl; [constructor|]. now apply insert_desc_sorted.
Qed.

Lemma sort_desc_strongly_sorted (l : list Meeting) :
  StronglySorted desc (sort_desc l).
Proof.
  apply Sorted_StronglySorted; [|apply sort_desc_sorted].
  intros a b c Hab Hbc. unfold desc in *. eapply string_leb_trans; eassumption.
Qed.

Lemma insert_desc_filter (k : string) (m : Meeting) (l : list Meeting) :
  filter (same_key k) (insert_desc m l)
  = if same_key k m then m :: filter (same_key k) l else filter (same_key k) l.
Proof.
  induction l as [|m' r IH]; simpl.
  - destruct (same_key k m); reflexivity.
  - destruct (String.leb (sort_key m') (sort_key m)) eqn:E; simpl;
      [destruct (same_key k m); reflexivity|].
    rewrite IH. unfold same_key in *.
    destruct (String.eqb_spec (sort_key m') k), (String.eqb_spec (sort_key m) k);
      try reflexivity.
    exfalso. rewrite e, e0, string_leb_refl in E. discriminate.
Qed.

(** Stability: for every key, the meetings with that key keep their order. *)
Lemma sort_desc_stable (k : string) (l : list Meeting) :
  filter (same_key k) (sort_desc l) = filter (same_key k) l.
Proof.
  induction l as [|m r IH]; simpl; [reflexivity|].
  rewrite insert_desc_filter, IH. reflexivity.
Qed.

End Sort.

(** ** Invariants of [load_cache] and [get_meetings] *)

Lemma dget_dfind (k : string) (o : list (string * json)) :
  dget k o = match dfind k o with Some v => v | None => JNull end.
Proof.
  unfold dget. induction o as [|[k' v] r IH]; simpl; [reflexivity|].
  destruct (String.eqb k k'); [reflexivity | exact IH].
Qed.

Lemma dict_set_In (k : string) (v : json) (d : list (string * json)) kd :
  In kd (dict_set k v d) -> In kd d \/ kd = (k, v).
Proof.
  induction d as [|[k' v'] r IH]; simpl.
  - intros [<-|[]]. now right.
  - destruct (String.eqb_spec k k') as [->|_]; simpl.
    + intros [<-|H]; [now right | now left; right].
    + intros [<-|H]; [now left; left|]. destruct (IH H); [now left; right | now right].
Qed.

Lemma dict_set_keys_In (k k0 : string) (v : json) (d : list (string * json)) :
  In k0 (map fst (dict_set k v d)) -> In k0 (map fst d) \/ k0 = k.
Proof.
  intros H. apply in_map_iff in H as [[k1 v1] [<- H]].
  destruct (dict_set_In k v d _ H) as [H'|H'].
  - left. now apply (in_map fst) in H'.
  - right. now inversion H'.
Qed.

Lemma dict_set_nodup (k : string) (v : json) (d : list (string * json)) :
  NoDup (map fst d) -> NoDup (map fst (dict_set k v d)).
Proof.
  induction d as [|[k' v'] r IH]; simpl; intros Hnd.
  - constructor; [intros []|constructor].
  - inversion Hnd as [|? ? Hni Hr]; subst.
    destruct (String.eqb_spec k k'); simpl; constructor; auto.
    intros Hin. destruct (dict_set_keys_In k k' v r Hin); congruence.
Qed.

Section Adapter.

Variable repr_composite : json -> string.

Abbreviation py_str := (py_str repr_composite).
Abbreviation normalize := (normalize repr_composite).
Abbreviation collect := (collect repr_composite).
Abbreviation index_docs := (index_docs repr_composite).
Abbreviation load_cache := (load_cache repr_composite).
Abbreviation get_meetings := (get_meetings repr_composite).
Abbreviation entry_ok := (entry_ok repr_composite).

Lemma index_docs_ok (docs0 docs : list json) (acc : list (string * json)) :
  (forall d, In d docs -> In d docs0) -> Forall (entry_ok docs0) acc ->
  Forall (entry_ok docs0) (index_docs docs acc).
Proof.
  revert acc. induction docs as [|d rest IH]; intros acc Hsub Hacc; simpl; [exact Hacc|].
  assert (Hsub' : forall x, In x rest -> In x docs0) by (intros; apply Hsub; now right).
  destruct d as [| | | | |o]; try (apply IH; assumption).
  destruct (truthy (dget "id" o)) eqn:Ht; apply IH; try assumption.
  apply Forall_forall. intros kd Hin.
  destruct (dict_set_In _ _ _ _ Hin) as [H|H].
  - exact (proj1 (Forall_forall _ _) Hacc kd H).
  - subst kd. exists o. simpl. repeat split; auto. apply Hsub. now left.
Qed.

Lemma index_docs_nodup (docs : list json) (acc : list (string * json)) :
  NoDup (map fst acc) -> NoDup (map fst (index_docs docs acc)).
Proof.
  revert acc. induction docs as [|d rest IH]; intros acc Hnd; simpl; [exact Hnd|].
  destruct d as [| | | | |o]; try (apply IH; assumption).
  destruct (truthy (dget "id" o)); apply IH; [now apply dict_set_nodup | exact Hnd].
Qed.

Lemma load_cache_ok (docs : list json) :
  Forall (entry_ok docs) (documents (load_cache docs)) /\
  NoDup (map fst (documents (load_cache docs))).
Proof.
  split.
  - apply index_docs_ok; [auto | constructor].
  - apply index_docs_nodup. constructor.
Qed.

Lemma collect_In (L : list (string * json)) (m : Meeting) :
  In m (collect L) -> exists k d, In (k, d) L /\ normalize k d = Some m.
Proof.
  induction L as [|[k d] r IH]; simpl; [intros []|].
  destruct (normalize k d) as [m'|] eqn:E.
  - intros [<-|H]; [now exists k, d; split; [left|]|].
    destruct (IH H) as (k' & d' & ? & ?). exists k', d'. split; [now right|assumption].
  - intros H. destruct (IH H) as (k' & d' & ? & ?). exists k', d'. split; [now right|assumption].
Qed.

Lemma get_meetings_In (snap : Snapshot) (m : Meeting) :
  In m (get_meetings snap) ->
  exists k d, In (k, d) (documents snap) /\ normalize k d = Some m.
Proof.
  intros H. apply collect_In.
  eapply Permutation_in; [apply sort_desc_perm | exact H].
Qed.

Lemma normalize_id (docs : list json) (kd : string * json) (m : Meeting) :
  entry_ok docs kd -> normalize (fst kd) (snd kd) = Some m -> m_id m = fst kd.
Proof.
  intros (o & Hd & _ & Ht & Hk). rewrite Hd. simpl.
  destruct (skipped_by_type o); [discriminate|]. intros [= <-]. simpl.
  unfold py_or. rewrite Ht. exact Hk.
Qed.

Lemma collect_ids (docs : list json) (L : list (string * json)) :
  Forall (entry_ok docs) L -> map m_id (collect L) = map fst (filter admitted L).
Proof.
  induction L as [|[k d] r IH]; simpl; intros HL; [reflexivity|].
  inversion HL as [|? ? Hkd Hr]; subst.
  destruct (normalize k d) as [m|] eqn:E.
  - assert (Ha : admitted (k, d) = true).
    { unfold admitted. simpl. destruct d as [| | | | |o]; try discriminate.
      simpl in E. destruct (skipped_by_type o); [discriminate | reflexivity]. }
    rewrite Ha. simpl. rewrite (normalize_id docs (k, d) m Hkd E), IH by exact Hr.
    reflexivity.
  - assert (Ha : admitted (k, d) = false).
    { unfold admitted. simpl. destruct d as [| | | | |o]; try reflexivity.
      simpl in E. destruct (skipped_by_type o); [reflexivity | discriminate]. }
    rewrite Ha. now apply IH.
Qed.

Lemma normalize_fixed_fields (k : string) (d : json) (m : Meeting) :
  normalize k d = Some m ->
  m_platform m = None /\ m_end_ts m = None /\
  m_folder_id m = None /\ m_folder_name m = None.
Proof.
  destruct d as [| | | | |o]; simpl; try discriminate.
  destruct (skipped_by_type o); [discriminate|]. intros [= <-]. simpl. auto.
Qed.

Lemma index_docs_has_id (docs : list json) (acc : list (string * json)) :
  index_docs (filter (fun d => match d with
                                | JObj o => truthy (dget "id" o)
                                | _ => false end) docs) acc
  = index_docs docs acc.
Proof.
  revert acc. induction docs as [|d rest IH]; intros acc; simpl; [reflexivity|].
  destruct d as [| | | | |o]; try apply IH.
  destruct (truthy (dget "id" o)) eqn:Ht; simpl; rewrite ?Ht; apply IH.
Qed.

End Adapter.

(** ** Claims on the adapter *)

Lemma skipped_by_type_admitted (o : list (string * json)) :
  skipped_by_type o = negb (type_admitted o).
Proof.
  unfold skipped_by_type, type_admitted. rewrite dget_dfind.
  destruct (dfind "type" o) as [v|]; [|reflexivity].
  destruct (truthy v), (eq_str v "meeting"); reflexivity.
Qed.

Lemma admitted_entry_admitted (kd : string * json) :
  admitted kd = entry_admitted kd.
Proof.
  unfold admitted, entry_admitted. destruct (snd kd); try reflexivity.
  rewrite skipped_by_type_admitted. apply negb_involutive.
Qed.

Lemma Forall_app_cons_inv {A} (P : A -> A -> Prop) (l1 : list A) (m : A) (l2 : list A) :
  StronglySorted P (l1 ++ m :: l2)%list -> Forall (P m) l2.
Proof.
  induction l1 as [|x l1 IH]; simpl; intros H.
  - now apply StronglySorted_inv in H.
  - apply StronglySorted_inv in H as [H _]. now apply IH.
Qed.

(** C1 (counterexample): a document that declares [type] as the empty string,
    a value other than ["meeting"], still yields a Meeting, since the filter
    only looks at truthy types. *)
Lemma C1_empty_type_admitted :
  map m_id (get_meetings repr_any
    (load_cache repr_any [JObj [("id", JStr "x"); ("type", JStr "")]])) = ["x"].
Proof. reflexivity. Qed.

(** C1 (amended): over a loaded cache, the ids of the meetings returned by
    [get_meetings] are, up to order, exactly the keys of the documents whose
    [type] is absent, falsy, or equal to ["meeting"]; the keys are distinct, so
    each such document yields exactly one Meeting and every other document
    yields none. *)
Theorem C1_get_meetings_type_filter (rc : json -> string) (docs : list json) :
  Permutation (map m_id (get_meetings rc (load_cache rc docs)))
              (map fst (filter entry_admitted (documents (load_cache rc docs))))
  /\ NoDup (map fst (documents (load_cache rc docs))).
Proof.
  destruct (load_cache_ok rc docs) as [Hok Hnd]. split; [|exact Hnd].
  unfold get_meetings.
  rewrite (Permutation_map m_id (sort_desc_perm _)).
  rewrite (collect_ids rc docs _ Hok).
  rewrite (filter_ext admitted entry_admitted admitted_entry_admitted).
  reflexivity.
Qed.

(** C2 (counterexample): two meetings with the same [start_ts] come out in
    document order, ["b"] before ["a"], not in ascending [id] order. *)
Lemma C2_tie_kept_in_document_order :
  map m_id (get_meetings repr_any (load_cache repr_any
    [JObj [("id", JStr "b"); ("created_at", JStr "2025-09-01T10:00:00Z")];
     JObj [("id", JStr "a"); ("created_at", JStr "2025-09-01T10:00:00Z")]]))
  = ["b"; "a"].
Proof. reflexivity. Qed.

(** C2 (amended): [get_meetings] returns the normalized meetings reordered so
    that [start_ts] is descending, a meeting with an empty [start_ts] is
    followed only by meetings with an empty [start_ts], and the meetings with
    any one [start_ts] keep the order of their documents in the loaded map
    (stable sort); ties are not ordered by [id]. *)
Theorem C2_get_meetings_sorted_stable (rc : json -> string) (snap : Snapshot) :
  let ms := get_meetings rc snap in
  let src := collect rc (documents snap) in
  Permutation ms src /\ StronglySorted desc ms /\
  (forall l1 m l2, ms = (l1 ++ m :: l2)%list -> m_start_ts m = "" ->
     Forall (fun m' => m_start_ts m' = "") l2) /\
  (forall k, filter (same_key k) ms = filter (same_key k) src).
Proof.
  intros ms src. unfold ms, src, get_meetings.
  split; [apply sort_desc_perm|]. split; [apply sort_desc_strongly_sorted|].
  split; [|intros k; apply sort_desc_stable].
  intros l1 m l2 Heq Hm.
  pose proof (sort_desc_strongly_sorted (collect rc (documents snap))) as Hs.
  rewrite Heq in Hs. apply Forall_app_cons_inv in Hs.
  eapply Forall_impl; [|exact Hs]. intros m' Hd. unfold desc, sort_key in Hd.
  rewrite Hm in Hd. now apply string_leb_empty.
Qed.

(** A structured [people] object: creator first, then attendees in order,
    exact-string duplicates skipped. *)
Example extract_participants_structured :
  extract_participants repr_any
    (JObj [("creator", JObj [("name", JStr "Alice")]);
           ("attendees", JArr [JObj [("email", JStr "bob@x")];
                               JObj [("name", JStr "Alice")];
                               JObj [("name", JStr ""); ("email", JStr "carol@x")]])])
  = ["Alice"; "bob@x"; "carol@x"].
Proof. reflexivity. Qed.

(** C3 (code bug): a [people] field that is a flat list of participant records
    contributes no participant at all; on the repository's fixture [e1]
    (people [{"name":"Alice"},{"name":"Bob"}]) the participants are empty. *)
Theorem C3_flat_people_list_ignored :
  (forall (rc : json -> string) (l : list json), extract_participants rc (JArr l) = [])
  /\ map m_participants (get_meetings repr_any (load_cache repr_any [doc_e1])) = [[]].
Proof. split; [reflexivity | reflexivity]. Qed.

Lemma strip_obj (v : json) :
  str_field (match v with JObj _ => JNull | v => v end) = str_field v.
Proof. destruct v; reflexivity. Qed.

Lemma str_field_some (v : json) (s : string) : str_field v = Some s -> v = JStr s.
Proof. destruct v; simpl; congruence. Qed.

(** C4 (counterexample): a structured [notes_plain] hides a string
    [notes_markdown]: the meeting has no notes. *)
Lemma C4_structured_first_candidate_hides_string :
  map m_notes (get_meetings repr_any (load_cache repr_any
    [JObj [("id", JStr "n1"); ("notes_plain", JObj [("type", JStr "doc")]);
           ("notes_markdown", JStr "hello")]])) = [None].
Proof. reflexivity. Qed.

(** C4 (amended): [notes] is the value of
    [notes_plain or notes_markdown or notes] (the first truthy of the first two,
    else the [notes] field) when that value is a string, and absent otherwise:
    a truthy non-string earlier candidate makes [notes] absent even when a
    later candidate is a string; [notes] is always one of the candidates'
    own strings (never a stringified value), and it is absent when no
    candidate is a string. *)
Theorem C4_notes_or_chain (o : list (string * json)) :
  extract_notes o =
    str_field (or3 (dget "notes_plain" o) (dget "notes_markdown" o) (dget "notes" o))
  /\ (forall s, extract_notes o = Some s -> In (JStr s) (notes_candidates o))
  /\ ((forall v, In v (notes_candidates o) -> str_field v = None) ->
      extract_notes o = None).
Proof.
  unfold extract_notes, notes_candidates.
  set (a := dget "notes_plain" o). set (b := dget "notes_markdown" o).
  set (c := dget "notes" o).
  assert (Hpick : py_or (py_or a b) c = or3 a b c /\ In (or3 a b c) [a; b; c]).
  { unfold py_or, or3. simpl.
    destruct (truthy a) eqn:Ha; simpl; [rewrite Ha; auto|].
    destruct (truthy b) eqn:Hb; simpl; auto. }
  destruct Hpick as [-> Hin]. rewrite strip_obj.
  split; [reflexivity|]. split.
  - intros s' Hs. apply str_field_some in Hs. rewrite <- Hs. exact Hin.
  - intros H. exact (H _ Hin).
Qed.

(** C9 (counterexample): a document without an [id] is dropped by
    [load_cache] and yields no Meeting, so no identifier is synthesized from
    a storage key. *)
Lemma C9_document_without_id_dropped :
  get_meetings repr_any (load_cache repr_any [JObj [("title", JStr "No id")]]) = [].
Proof. reflexivity. Qed.

(** C9 (amended): documents whose [id] is absent or falsy contribute nothing
    to [get_meetings] (they are dropped when the cache is loaded), and every
    Meeting returned has as [id] the [str()] of the truthy [id] field of a
    fetched document. *)
Theorem C9_meeting_id_from_document_id (rc : json -> string) (docs : list json) :
  get_meetings rc (load_cache rc docs) = get_meetings rc (load_cache rc (filter has_id docs))
  /\ (forall m, In m (get_meetings rc (load_cache rc docs)) ->
        exists o, In (JObj o) docs /\ truthy (dget "id" o) = true /\
                  m_id m = py_str rc (dget "id" o)).
Proof.
  split.
  - unfold load_cache. simpl. unfold has_id. now rewrite index_docs_has_id.
  - intros m Hm. destruct (get_meetings_In rc _ m Hm) as (k & d & Hin & Hn).
    destruct (load_cache_ok rc docs) as [Hok _].
    pose proof (proj1 (Forall_forall _ _) Hok (k, d) Hin) as Hkd.
    pose proof (normalize_id rc docs (k, d) m Hkd Hn) as Hid.
    destruct Hkd as (o & Hd & Ho & Ht & Hk). simpl in *.
    exists o. rewrite Hid, Hk. auto.
Qed.

(** C10: the snapshot built by [load_cache] has empty side tables, and every
    Meeting returned by [get_meetings] has [platform], [end_ts], [folder_id]
    and [folder_name] absent. *)
Theorem C10_side_fields_absent (rc : json -> string) (docs : list json) (m : Meeting) :
  In m (get_meetings rc (load_cache rc docs)) ->
  meetingsMetadata (load_cache rc docs) = [] /\
  documentLists (load_cache rc docs) = [] /\
  documentListsMetadata (load_cache rc docs) = [] /\
  m_platform m = None /\ m_end_ts m = None /\
  m_folder_id m = None /\ m_folder_name m = None.
Proof.
  intros Hm. destruct (get_meetings_In rc _ m Hm) as (k & d & _ & Hn).
  destruct (normalize_fixed_fields rc k d m Hn) as (? & ? & ? & ?).
  repeat split; assumption.
Qed.

Lemma C10_witness :
  exists m, In m (get_meetings repr_any (load_cache repr_any [doc_e1])) /\
    meetingsMetadata (load_cache repr_any [doc_e1]) = [] /\
    documentLists (load_cache repr_any [doc_e1]) = [] /\
    documentListsMetadata (load_cache repr_any [doc_e1]) = [] /\
    m_platform m = None /\ m_end_ts m = None /\
    m_folder_id m = None /\ m_folder_name m = None.
Proof.
  eexists. split; [simpl; left; reflexivity|].
  apply (C10_side_fields_absent repr_any [doc_e1]). simpl. left. reflexivity.
Defined.

(** ** Claims on the remote source *)

Module RemoteFacts.
Import Remote.

Example fetch_from_api_two_429_then_ok :
  fetch_from_api (fun a => if (a <? 2)%Z then RespHTTPError 429 "" else RespBody (Some (JObj [])))
  = (Ret (JObj []), [Urlopen 0; Sleep 1; Urlopen 1; Sleep 2; Urlopen 2]).
Proof. reflexivity. Qed.

Example get_all_documents_two_pages :
  get_all_documents [repeat JNull 100; [JNull; JNull]; [JNull]]
  = Some ([(100, 0); (100, 100)]%Z, repeat JNull 102).
Proof. reflexivity. Qed.

(** C6 (counterexample): after three 429 responses the exception raised is a
    [GranolaParseError], the class also raised for a malformed response body;
    the code has no rate-limit exception type. *)
Lemma C6_rate_limit_raises_parse_error_class :
  fst (fetch_from_api (fun _ => RespHTTPError 429 "")) =
    Exc (GranolaParseError MsgRateLimit [("status", JNum 429); ("attempt", JNum 3)])
  /\ fst (fetch_from_api (fun _ => RespBody None)) =
    Exc (GranolaParseError MsgUnexpected [("attempt", JNum 1)]).
Proof. split; reflexivity. Qed.

(** C6 (amended): when every response is a 429, [_fetch_from_api] makes exactly
    3 requests, sleeping 1s then 2s between them, and raises
    [GranolaParseError("Rate limit exceeded. ...")] with details status 429
    and attempt 3; when fewer than 3 responses of 429 are followed by a
    successful response, it returns that response's data after exactly
    (number of 429s + 1) requests. *)
Theorem C6_retry_bound :
  (forall resp, (forall i, rate_limited resp i) ->
     fetch_from_api resp =
       (Exc (GranolaParseError MsgRateLimit [("status", JNum 429); ("attempt", JNum 3)]),
        [Urlopen 0; Sleep 1; Urlopen 1; Sleep 2; Urlopen 2]))
  /\ (forall resp k data, (0 <= k < 3)%Z ->
     (forall i, (0 <= i < k)%Z -> rate_limited resp i) ->
     resp k = RespBody (Some data) ->
     exists evs, fetch_from_api resp = (Ret data, evs) /\
                 count_urlopen evs = S (Z.to_nat k)).
Proof.
  split.
  - intros resp H.
    destruct (H 0%Z) as [b0 E0], (H 1%Z) as [b1 E1], (H 2%Z) as [b2 E2].
    unfold fetch_from_api. simpl. rewrite E0, E1, E2. reflexivity.
  - intros resp k data Hk Hrl Hok.
    assert (Hk3 : (k = 0 \/ k = 1 \/ k = 2)%Z) by lia.
    destruct Hk3 as [Hk0 | [Hk0 | Hk0]]; subst k; unfold fetch_from_api; simpl.
    + rewrite Hok. eexists. split; reflexivity.
    + destruct (Hrl 0%Z ltac:(lia)) as [b0 E0]. rewrite E0, Hok.
      eexists. split; reflexivity.
    + destruct (Hrl 0%Z ltac:(lia)) as [b0 E0], (Hrl 1%Z ltac:(lia)) as [b1 E1].
      rewrite E0, E1, Hok. eexists. split; reflexivity.
Qed.

(** C7: a 401 or 403 response, at any attempt and whatever attempts remain,
    ends [_fetch_from_api] at once with a [GranolaParseError] carrying the
    status: the only event is that one request, with no sleep and no further
    request. *)
Theorem C7_auth_error_no_retry (resp : Z -> Response) (attempt : Z) (more : list Z)
  (code : Z) (body : string) :
  (code = 401 \/ code = 403)%Z -> resp attempt = RespHTTPError code body ->
  fetch_loop resp (attempt :: more) =
    (Exc (GranolaParseError (if (code =? 401)%Z then MsgInvalidToken else MsgForbidden)
                            [("status", JNum code)]),
     [Urlopen attempt]).
Proof.
  intros [-> | ->] E; simpl; rewrite E; reflexivity.
Qed.

Lemma C7_witness :
  (401 = 401 \/ 401 = 403)%Z /\
  fetch_loop (fun _ => RespHTTPError 401 "") [0; 1; 2]%Z =
    (Exc (GranolaParseError (if (401 =? 401)%Z then MsgInvalidToken else MsgForbidden)
                            [("status", JNum 401)]),
     [Urlopen 0]).
Proof.
  split; [left; reflexivity|].
  apply (C7_auth_error_no_retry (fun _ => RespHTTPError 401 "") 0 [1; 2]%Z 401 "").
  - left; reflexivity.
  - reflexivity.
Defined.

Lemma offsets_step (n : nat) (offset : Z) :
  map (fun i => (batch_size, offset + batch_size * Z.of_nat i)%Z) (seq 0 (S n)) =
  (batch_size, offset)
  :: map (fun i => (batch_size, offset + batch_size + batch_size * Z.of_nat i)%Z)
         (seq 0 n).
Proof.
  cbn [seq map]. f_equal; [f_equal; lia|].
  rewrite <- seq_shift, map_map. apply map_ext. intros i. f_equal. lia.
Qed.

Lemma all_documents_loop_full (full : list (list json)) (last : list json)
  (rest : list (list json)) (offset : Z) :
  Forall (fun p => 100 <= length p)%nat full -> (length last < 100)%nat ->
  all_documents_loop (full ++ last :: rest) offset =
    Some (map (fun i => (batch_size, offset + batch_size * Z.of_nat i)%Z)
              (seq 0 (S (length full))),
          concat (full ++ [last])).
Proof.
  revert offset. induction full as [|p full IH]; intros offset Hfull Hlast.
  - rewrite offsets_step. cbn [app concat all_documents_loop map seq].
    destruct last as [|x l]; [reflexivity|].
    replace (Z.of_nat (length (x :: l)) <? batch_size)%Z with true
      by (symmetry; apply Z.ltb_lt; unfold batch_size; lia).
    rewrite app_nil_r. reflexivity.
  - inversion Hfull as [|? ? Hp Hfull']; subst.
    destruct p as [|x l]; [simpl in Hp; lia|].
    change (((x :: l) :: full) ++ last :: rest)%list
      with ((x :: l) :: (full ++ last :: rest))%list.
    cbn [all_documents_loop].
    replace (Z.of_nat (length (x :: l)) <? batch_size)%Z with false
      by (symmetry; apply Z.ltb_ge; unfold batch_size; lia).
    rewrite (IH (offset + batch_size)%Z Hfull' Hlast).
    cbn [length]. rewrite (offsets_step (S (length full)) offset). reflexivity.
Qed.

(** C8: for every sequence of page results made of full pages (100 or more
    documents) then a page that is empty or shorter than 100 and anything
    after it, [get_all_documents] requests pages of size 100 at offsets
    0, 100, 200, ... (one per full page plus the short one), stops there, and
    returns the concatenation of the fetched pages in fetch order. *)
Theorem C8_get_all_documents_pagination (full : list (list json))
  (last : list json) (rest : list (list json)) :
  Forall (fun p => 100 <= length p)%nat full -> (length last < 100)%nat ->
  get_all_documents (full ++ last :: rest) =
    Some (map (fun i => (100, 100 * Z.of_nat i)%Z) (seq 0 (S (length full))),
          concat (full ++ [last])).
Proof.
  intros Hfull Hlast. unfold get_all_documents.
  rewrite (all_documents_loop_full full last rest 0 Hfull Hlast). reflexivity.
Qed.

Lemma C8_witness :
  Forall (fun p => 100 <= length p)%nat [repeat JNull 100] /\
  (length [JNull] < 100)%nat /\
  get_all_documents ([repeat JNull 100] ++ [JNull] :: [[JNull]]) =
    Some (map (fun i => (100, 100 * Z.of_nat i)%Z) (seq 0 (S (length [repeat JNull 100]))),
          concat ([repeat JNull 100] ++ [[JNull]])).
Proof.
  split; [repeat constructor; simpl; lia|]. split; [simpl; lia|].
  apply C8_get_all_documents_pagination; [repeat constructor; simpl; lia | simpl; lia].
Defined.

Lemma fetch_loop_first_request (resp : Z -> Response) (a : Z) (more : list Z) :
  exists r evs, fetch_loop resp (a :: more) = (r, Urlopen a :: evs).
Proof.
  simpl. destruct (resp a) as [[data|]|code body| |];
    repeat match goal with
      | |- context [if ?c then _ else _] => destruct c
      | |- context [let '(_, _) := ?p in _] => destruct p
      end; eexists _, _; reflexivity.
Qed.

Lemma fs_lookup_write (path : string) (f : CacheFile) (fs : FS) :
  fs_lookup path (fs_write path f fs) = Some f.
Proof.
  induction fs as [|[p f'] r IH]; simpl.
  - now rewrite String.eqb_refl.
  - destruct (String.eqb_spec path p) as [->|Hne]; simpl.
    + now rewrite String.eqb_refl.
    + apply String.eqb_neq in Hne. now rewrite Hne.
Qed.

(** C5 (counterexample): a fetch at time 0 stores its response in the cache
    file (and fails because [docs] is not a list); a second call with the
    same parameters and [force=False] 60 seconds later, with the cache file
    younger than the 24h TTL, issues a new HTTP request. *)
Lemma C5_fresh_cache_file_refetched :
  let '(_, fs1, ev1) :=
    get_documents (fun s => s) 86400 [] 0 resp_docs_not_list WriteOk None None true false in
  ev1 = [Urlopen 0] /\
  is_cache_fresh 86400 fs1 60 (docs_path (fun s => s) None None true) = true /\
  let '(_, _, ev2) :=
    get_documents (fun s => s) 86400 fs1 60 resp_docs_not_list WriteOk None None true false in
  ev2 = [Urlopen 0].
Proof. vm_compute. split; [reflexivity | split; reflexivity]. Qed.

Lemma fetch_and_store_request (fs : FS) (now : Z) (resp : Z -> Response)
  (w : WriteOutcome) (path : string) :
  exists r fs' evs, fetch_and_store fs now resp w path = (r, fs', Urlopen 0 :: evs).
Proof.
  unfold fetch_and_store, fetch_from_api.
  destruct (fetch_loop_first_request resp 0 (range_from 1 2)) as (r & evs & E).
  simpl range_from in *. rewrite E.
  destruct r as [data|e]; [destruct (docs_of data)|]; eexists _, _, _; reflexivity.
Qed.

Lemma cached_docs_unusable (ttl : Z) (fs : FS) (now : Z) (path : string) (force : bool) :
  force = true \/ cache_unusable ttl fs now path -> cached_docs ttl fs now path force = None.
Proof.
  unfold cached_docs, is_cache_fresh, read_cache.
  intros [-> | [Hl | (f & Hl & Hf)]]; [reflexivity | rewrite Hl; now destruct force|].
  rewrite Hl. destruct (negb force); [|reflexivity]. simpl.
  destruct Hf as [Hage | [Hc | [Hc | (o & Hc & Hd)]]].
  - replace (now - mtime f <? ttl)%Z with false by (symmetry; apply Z.ltb_ge; lia).
    reflexivity.
  - rewrite Hc. now destruct (now - mtime f <? ttl)%Z.
  - rewrite Hc. now destruct (now - mtime f <? ttl)%Z.
  - rewrite Hc. destruct (now - mtime f <? ttl)%Z; [|reflexivity].
    destruct (dget_default "docs" o (JArr [])) eqn:E; try reflexivity.
    exfalso. exact (Hd _ eq_refl).
Qed.

(** C5 (amended): for [get_documents] with the same (normalized) parameters:
    with [force=False] and a cache file that is younger than the TTL and holds
    a JSON object whose [docs] is absent or a list, the docs are served from
    the file and no HTTP request is made; with [force=True], or a cache file
    that is missing, not younger than the TTL, unreadable, [null], or whose
    [docs] is not a list, an HTTP request is made; in particular, after a
    call that fetched over HTTP, succeeded and completed its cache write, a
    call with [force=False] less than the TTL later returns the same docs with
    no HTTP request. *)
Theorem C5_cache_freshness (sha : string -> string) (ttl : Z) (fs : FS) (now : Z)
  (resp : Z -> Response) (w : WriteOutcome) (limit offset : option Z)
  (panel force : bool) :
  (forall docs, force = false -> cache_hit ttl fs now (docs_path sha limit offset panel) docs ->
     get_documents sha ttl fs now resp w limit offset panel force = (Ret docs, fs, []))
  /\ (force = true \/ cache_unusable ttl fs now (docs_path sha limit offset panel) ->
     exists r fs' evs,
       get_documents sha ttl fs now resp w limit offset panel force = (r, fs', Urlopen 0 :: evs))
  /\ (forall docs fs1 evs1 later resp' w',
       get_documents sha ttl fs now resp WriteOk limit offset panel force
         = (Ret docs, fs1, Urlopen 0 :: evs1) ->
       (later - now < ttl)%Z ->
       get_documents sha ttl fs1 later resp' w' limit offset panel false = (Ret docs, fs1, [])).
Proof.
  split; [|split].
  - intros docs -> (f & o & Hl & Hage & Hc & Hd).
    unfold get_documents, cached_docs, is_cache_fresh, read_cache.
    change (get_cache_path (get_cache_key sha (int_or limit 100) (int_or offset 0) panel))
      with (docs_path sha limit offset panel).
    rewrite Hl. replace (now - mtime f <? ttl)%Z with true by (symmetry; now apply Z.ltb_lt).
    rewrite Hc. simpl. rewrite Hd. reflexivity.
  - intros H. unfold get_documents.
    change (get_cache_path (get_cache_key sha (int_or limit 100) (int_or offset 0) panel))
      with (docs_path sha limit offset panel).
    rewrite (cached_docs_unusable ttl fs now _ force H).
    apply fetch_and_store_request.
  - intros docs fs1 evs1 later resp' w' H Hlater.
    unfold get_documents in *.
    change (get_cache_path (get_cache_key sha (int_or limit 100) (int_or offset 0) panel))
      with (docs_path sha limit offset panel) in *.
    set (path := docs_path sha limit offset panel) in *.
    destruct (cached_docs ttl fs now path force); [discriminate|].
    unfold fetch_and_store in H. destruct (fetch_from_api resp) as [r evs].
    destruct r as [data|e]; [|discriminate].
    destruct (docs_of data) as [docs'|e] eqn:Ed; [|discriminate].
    injection H as <- <- _.
    unfold cached_docs, is_cache_fresh, read_cache. simpl write_cache.
    rewrite fs_lookup_write. simpl mtime. simpl contents.
    replace (later - now <? ttl)%Z with true by (symmetry; now apply Z.ltb_lt).
    unfold docs_of in Ed. destruct data as [| | | | |o]; try discriminate.
    simpl. destruct (dget_default "docs" o (JArr [])); congruence.
Qed.

End RemoteFacts.

(** ** Further properties of the adapter *)

Lemma dfind_dict_set (k k' : string) (v : json) (d : list (string * json)) :
  dfind k (dict_set k' v d) = if String.eqb k k' then Some v else dfind k d.
Proof.
  induction d as [|[k0 v0] r IH]; simpl; [reflexivity|].
  destruct (String.eqb_spec k' k0) as [->|Hne]; simpl.
  - destruct (String.eqb k k0); reflexivity.
  - rewrite IH. destruct (String.eqb_spec k k0) as [->|]; [|reflexivity].
    apply String.eqb_neq in Hne. rewrite String.eqb_sym, Hne. reflexivity.
Qed.

Lemma dfind_notin (k : string) (d : list (string * json)) :
  ~ In k (map fst d) -> dfind k d = None.
Proof.
  induction d as [|[k' v] r IH]; simpl; [reflexivity|].
  intros Hn. destruct (String.eqb_spec k k') as [->|_]; [exfalso; auto|].
  apply IH. auto.
Qed.

Lemma NoDup_map_inj {A B} (g : A -> B) (l : list A) (x y : A) :
  NoDup (map g l) -> In x l -> In y l -> g x = g y -> x = y.
Proof.
  induction l as [|a r IH]; simpl; [intros _ []|].
  intros Hnd Hx Hy Hg. inversion Hnd as [|? ? Hni Hr]; subst.
  destruct Hx as [<-|Hx], Hy as [<-|Hy]; auto.
  - exfalso. apply Hni. rewrite Hg. now apply in_map.
  - exfalso. apply Hni. rewrite <- Hg. now apply in_map.
Qed.

Lemma NoDup_map_filter {A B} (g : A -> B) (f : A -> bool) (l : list A) :
  NoDup (map g l) -> NoDup (map g (filter f l)).
Proof.
  induction l as [|a r IH]; simpl; [auto|].
  intros Hnd. inversion Hnd as [|? ? Hni Hr]; subst.
  destruct (f a); simpl; [|auto]. constructor; [|auto].
  intros Hin. apply in_map_iff in Hin as (x & Hx & Hin).
  apply filter_In in Hin as [Hin _]. apply Hni. rewrite <- Hx. now apply in_map.
Qed.

Lemma find_perm_unique (k : string) (l l' : list Meeting) :
  NoDup (map m_id l) -> Permutation l l' ->
  find (fun m => String.eqb (m_id m) k) l = find (fun m => String.eqb (m_id m) k) l'.
Proof.
  intros Hnd Hp.
  destruct (find (fun m => String.eqb (m_id m) k) l') as [y|] eqn:Ey.
  - apply find_some in Ey as [Hy Hky].
    destruct (find (fun m => String.eqb (m_id m) k) l) as [x|] eqn:Ex.
    + apply find_some in Ex as [Hx Hkx]. f_equal.
      apply (NoDup_map_inj m_id l x y Hnd Hx); [now apply (Permutation_in _ (Permutation_sym Hp))|].
      apply String.eqb_eq in Hkx, Hky. congruence.
    + rewrite (find_none _ _ Ex y) in Hky; [discriminate|].
      now apply (Permutation_in _ (Permutation_sym Hp)).
  - destruct (find (fun m => String.eqb (m_id m) k) l) as [x|] eqn:Ex; [|reflexivity].
    apply find_some in Ex as [Hx Hkx].
    rewrite (find_none _ _ Ey x) in Hkx; [discriminate|].
    now apply (Permutation_in _ Hp).
Qed.

Lemma length_filter_negb {A} (f : A -> bool) (l : list A) :
  (length (filter f l) + length (filter (fun x => negb (f x)) l))%nat = length l.
Proof.
  induction l as [|a r IH]; simpl; [reflexivity|].
  destruct (f a); simpl; lia.
Qed.

Lemma NoDup_snoc {A} (l : list A) (x : A) :
  NoDup l -> ~ In x l -> NoDup (l ++ [x]).
Proof.
  intros Hnd Hn. apply (Permutation_NoDup (Permutation_cons_append l x)).
  now constructor.
Qed.

Lemma in_strs_str (s : string) (xs : list string) :
  in_strs (JStr s) xs = true <-> In s xs.
Proof.
  unfold in_strs. rewrite existsb_exists. split.
  - intros (x & Hx & He). simpl in He. apply String.eqb_eq in He. now subst.
  - intros H. exists s. split; [exact H | apply String.eqb_refl].
Qed.

Section AdapterMore.

Variable rc : json -> string.

Lemma index_docs_lookup (k : string) (docs : list json) (acc : list (string * json)) :
  dfind k (index_docs rc docs acc) =
  fold_left (fun acc d =>
    match d with
    | JObj o => if truthy (dget "id" o) && String.eqb (py_str rc (dget "id" o)) k
                then Some d else acc
    | _ => acc
    end) docs (dfind k acc).
Proof.
  revert acc. induction docs as [|d rest IH]; intros acc; simpl; [reflexivity|].
  destruct d as [| | | | |o]; try apply IH.
  destruct (truthy (dget "id" o)); simpl; rewrite IH; [|reflexivity].
  rewrite dfind_dict_set, String.eqb_sym. reflexivity.
Qed.

Lemma length_collect (L : list (string * json)) :
  length (collect rc L) = length (filter admitted L).
Proof.
  induction L as [|[k d] r IH]; simpl; [reflexivity|].
  unfold admitted. simpl.
  destruct d as [| | | | |o]; simpl; try exact IH.
  destruct (skipped_by_type o); simpl; [exact IH | now rewrite IH].
Qed.

Lemma find_collect (docs : list json) (k : string) (L : list (string * json)) :
  Forall (entry_ok rc docs) L -> NoDup (map fst L) ->
  find (fun m => String.eqb (m_id m) k) (collect rc L) =
  match dfind k L with Some d => normalize rc k d | None => None end.
Proof.
  induction L as [|[k' d] r IH]; simpl; intros HL Hnd; [reflexivity|].
  inversion HL as [|? ? Hkd Hr]; subst. inversion Hnd as [|? ? Hni Hnd']; subst.
  destruct (normalize rc k' d) as [m|] eqn:E.
  - simpl. rewrite (normalize_id rc docs (k', d) m Hkd E).
    destruct (String.eqb_spec k k') as [->|Hne].
    + simpl fst. now rewrite String.eqb_refl.
    + simpl fst. rewrite (proj2 (String.eqb_neq k' k)) by congruence. now apply IH.
  - destruct (String.eqb_spec k k') as [->|Hne].
    + rewrite E, IH by assumption. now rewrite dfind_notin.
    + now apply IH.
Qed.

Lemma get_meetings_ids_nodup (docs : list json) :
  NoDup (map m_id (get_meetings rc (load_cache rc docs))).
Proof.
  destruct (load_cache_ok rc docs) as [Hok Hnd]. unfold get_meetings.
  apply (Permutation_NoDup (Permutation_map m_id (Permutation_sym (sort_desc_perm _)))).
  rewrite (collect_ids rc docs _ Hok). now apply NoDup_map_filter.
Qed.

Lemma add_attendees_spec (atts : list json) (parts : list string) :
  NoDup parts ->
  (forall a, In (JObj a) atts -> truthy (name_or_email a) = true ->
             exists s, name_or_email a = JStr s) ->
  NoDup (add_attendees rc atts parts) /\
  (exists more, add_attendees rc atts parts = (parts ++ more)%list) /\
  (forall a s, In (JObj a) atts -> name_or_email a = JStr s -> s <> "" ->
               In s (add_attendees rc atts parts)).
Proof.
  revert parts. induction atts as [|att rest IH]; intros parts Hnd Hstr; simpl.
  - split; [exact Hnd|]. split; [exists []; now rewrite app_nil_r|]. intros _ _ [].
  - assert (Hstr' : forall a, In (JObj a) rest -> truthy (name_or_email a) = true ->
                              exists s, name_or_email a = JStr s)
      by (intros a Ha; apply Hstr; now right).
    destruct att as [| | | | |a0];
      try (destruct (IH parts Hnd Hstr') as (H1 & H2 & H3);
           split; [exact H1|]; split; [exact H2|];
           intros ? ? [Ha|Ha]; [discriminate | eapply H3; eassumption]).
    destruct (truthy (name_or_email a0) && negb (in_strs (name_or_email a0) parts)) eqn:Ec.
    + apply andb_true_iff in Ec as [Ht Hn].
      destruct (Hstr a0 (or_introl eq_refl) Ht) as [s0 Hs0].
      rewrite Hs0 in Hn. apply negb_true_iff in Hn.
      assert (Hnin : ~ In s0 parts) by (intros Hi; apply in_strs_str in Hi; congruence).
      destruct (IH (parts ++ [py_str rc (name_or_email a0)])%list) as (H1 & (more & H2) & H3);
        [rewrite Hs0; now apply NoDup_snoc | exact Hstr' |].
      split; [exact H1|]. split; [exists ([py_str rc (name_or_email a0)] ++ more)%list;
                                  now rewrite H2, app_assoc|].
      intros a s [Ha|Ha] Hs Hne; [|eapply H3; eassumption].
      inversion Ha; subst a. rewrite H2. apply in_or_app. left. apply in_or_app. right.
      rewrite Hs. left. reflexivity.
    + destruct (IH parts Hnd Hstr') as (H1 & (more & H2) & H3).
      split; [exact H1|]. split; [now exists more|].
      intros a s [Ha|Ha] Hs Hne; [|eapply H3; eassumption].
      inversion Ha; subst a. rewrite Hs in Ec. simpl in Ec.
      apply String.eqb_neq in Hne. rewrite Hne in Ec. simpl in Ec.
      apply negb_false_iff, in_strs_str in Ec.
      rewrite H2. apply in_or_app. now left.
Qed.

End AdapterMore.

(** X1: [load_cache] keys documents by [str(id)] and a later document with
    the same key replaces the earlier one: the document stored under [k] is
    the last fetched dict with a truthy [id] whose [str] is [k], and nothing
    is stored under [k] when there is none. *)
Theorem load_cache_last_document_wins (rc : json -> string) (docs : list json) (k : string) :
  dfind k (documents (load_cache rc docs)) = last_with_key rc k docs.
Proof.
  unfold load_cache, last_with_key. simpl documents.
  rewrite index_docs_lookup. reflexivity.
Qed.

(** X2: after [load_cache], no two meetings returned by [get_meetings] share
    an [id]. *)
Theorem get_meetings_ids_unique (rc : json -> string) (docs : list json) :
  NoDup (map m_id (get_meetings rc (load_cache rc docs))).
Proof. apply get_meetings_ids_nodup. Qed.

(** X3: on an adapter holding the snapshot loaded from [docs],
    [get_meeting_by_id k] makes no source call and returns the normalized
    form of the document stored under [k] (the last fetched document whose
    [str(id)] is [k]), or [None] when there is no such document or it is not
    a meeting. *)
Theorem get_meeting_by_id_lookup (rc : json -> string) (a : Adapter) (docs : list json) (fetched : Remote.outcome (list json)) (now : Z)
  (k : string) :
  a_cache a = Some (load_cache rc docs) ->
  adapter_get_meeting_by_id rc a fetched now k =
    (Remote.Ret (match last_with_key rc k docs with
                 | Some d => normalize rc k d
                 | None => None
                 end), a, []).
Proof.
  intros Ha. unfold adapter_get_meeting_by_id, adapter_load_cache. rewrite Ha.
  f_equal. f_equal. f_equal.
  unfold meeting_by_id, get_meetings.
  destruct (load_cache_ok rc docs) as [Hok Hnd].
  rewrite <- (find_perm_unique k (collect rc (documents (load_cache rc docs))));
    [| rewrite (collect_ids rc docs _ Hok); now apply NoDup_map_filter
     | apply Permutation_sym, sort_desc_perm].
  rewrite (find_collect rc docs k _ Hok Hnd).
  unfold load_cache, last_with_key. simpl documents. rewrite index_docs_lookup.
  reflexivity.
Qed.

(** X4: when every attendee's [name or email] that is truthy is a string,
    the participants list has no duplicates, starts with the creator's
    [name or email] when that is truthy, and contains every attendee's
    non-empty string [name or email]. *)
Theorem participants_unique_creator_first (rc : json -> string)
  (p : list (string * json)) (atts : list json) :
  dget_default "attendees" p (JArr []) = JArr atts ->
  (forall a, In (JObj a) atts -> truthy (name_or_email a) = true ->
             exists s, name_or_email a = JStr s) ->
  NoDup (extract_participants rc (JObj p)) /\
  (forall c, dget_default "creator" p (JObj []) = JObj c ->
             truthy (name_or_email c) = true ->
             hd_error (extract_participants rc (JObj p)) = Some (py_str rc (name_or_email c))) /\
  (forall a s, In (JObj a) atts -> name_or_email a = JStr s -> s <> "" ->
               In s (extract_participants rc (JObj p))).
Proof.
  intros Hatt Hstr. unfold extract_participants. rewrite Hatt.
  set (parts := match dget_default "creator" p (JObj []) with
                | JObj c => if truthy (name_or_email c) then [py_str rc (name_or_email c)] else []
                | _ => [] end).
  assert (Hp : NoDup parts).
  { unfold parts. destruct (dget_default "creator" p (JObj [])); try constructor.
    destruct (truthy (name_or_email o)); repeat constructor. intros []. }
  destruct (add_attendees_spec rc atts parts Hp Hstr) as (H1 & (more & H2) & H3).
  split; [exact H1|]. split; [|exact H3].
  intros c Hc Ht. rewrite H2. unfold parts. rewrite Hc, Ht. reflexivity.
Qed.

(** X5: [load_cache] is memoized: after a call that returned a snapshot, a
    call without [force_reload] returns the same snapshot, whatever the
    source would return and at any later time, with no source call and no
    change to the adapter. *)
Theorem load_cache_memoized (rc : json -> string) (a a' : Adapter)
  (fetched fetched' : Remote.outcome (list json)) (now now' : Z) (force : bool)
  (snap : Snapshot) (calls : list SourceCall) :
  adapter_load_cache rc a fetched now force = (Remote.Ret snap, a', calls) ->
  adapter_load_cache rc a' fetched' now' false = (Remote.Ret snap, a', []) /\
  a_cache a' = Some snap.
Proof.
  unfold adapter_load_cache.
  destruct (a_cache a) as [c|] eqn:Ec, force;
    try (destruct fetched as [docs|e]; [|discriminate]; intros [= <- <- _];
         split; reflexivity).
  intros [= <- <- _]. rewrite Ec. split; reflexivity.
Qed.

(** X6: a [reload] whose source call raises propagates the exception and
    leaves the adapter as it was, so the next [get_meetings] still serves the
    meetings of the previously loaded snapshot without calling the source. *)
Theorem failed_reload_keeps_snapshot (rc : json -> string) (a : Adapter) (snap : Snapshot)
  (e : Remote.PyExc) (now now' : Z) (fetched : Remote.outcome (list json)) :
  a_cache a = Some snap ->
  adapter_reload rc a (Remote.Exc e) now =
    (Remote.Exc e, a, [if source_has_get_all a then CallGetAllDocuments true
                       else CallGetDocuments true]) /\
  adapter_get_meetings rc a fetched now' = (Remote.Ret (get_meetings rc snap), a, []).
Proof.
  intros Ha. unfold adapter_reload, adapter_get_meetings, adapter_load_cache.
  rewrite Ha. split; reflexivity.
Qed.

(** X7: after a successful [refresh_cache], which calls the source's
    [refresh_cache] once, the next [get_meetings] calls the source again
    ([get_all_documents] when it has it, else [get_documents]) with
    [force=False], returns the meetings of the newly fetched documents and
    stores them as the new snapshot with the load time. *)
Theorem refresh_then_get_meetings_reloads (rc : json -> string) (a : Adapter) (u : unit)
  (docs : list json) (now : Z) :
  let '(r1, a1, c1) := adapter_refresh_cache a (Remote.Ret u) in
  r1 = Remote.Ret tt /\ c1 = [CallRefreshCache] /\
  adapter_get_meetings rc a1 (Remote.Ret docs) now =
    (Remote.Ret (get_meetings rc (load_cache rc docs)),
     {| source_has_get_all := source_has_get_all a;
        a_cache := Some (load_cache rc docs); a_loaded_at := Some now |},
     [if source_has_get_all a then CallGetAllDocuments false else CallGetDocuments false]).
Proof. simpl. repeat split. Qed.

(** X8: on a loaded adapter, [get_cache_info] reports [valid_structure] true
    and a [meeting_count] equal to the number of documents in the snapshot,
    which is the number of meetings [get_meetings] returns plus the number of
    documents it drops (those with a truthy [type] other than ["meeting"]). *)
Theorem cache_info_meeting_count (rc : json -> string) (isoformat : Z -> string)
  (a : Adapter) (snap : Snapshot) (info : list (string * json)) :
  a_cache a = Some snap ->
  dfind "meeting_count" (adapter_get_cache_info isoformat a info) =
    Some (JNum (Z.of_nat (length (get_meetings rc snap) +
                          length (filter (fun kd => negb (admitted kd)) (documents snap))))) /\
  dfind "valid_structure" (adapter_get_cache_info isoformat a info) = Some (JBool true).
Proof.
  intros Ha. unfold adapter_get_cache_info. rewrite Ha.
  rewrite !dfind_dict_set. simpl. split; [|reflexivity].
  unfold get_meetings. rewrite (Permutation_length (sort_desc_perm _)), length_collect.
  now rewrite length_filter_negb.
Qed.

(** ** Further properties of the remote source *)

Module RemoteMore.
Import Remote.

Lemma retryable_cases (r : Response) :
  retryable r = true ->
  r = RespURLError \/ (exists b, r = RespHTTPError 429 b) \/
  (exists c b, r = RespHTTPError c b /\ (c =? 401)%Z = false /\ (c =? 403)%Z = false /\
               (c =? 429)%Z = false /\ (500 <=? c)%Z = true /\ (c <? 600)%Z = true).
Proof.
  destruct r as [p|c b| |]; simpl; try discriminate; [|now left].
  intros H. right. destruct (Z.eqb_spec c 429) as [->|Hne]; [left; now exists b|].
  right. simpl in H. apply andb_true_iff in H as [H1 H2].
  apply Z.leb_le in H1. apply Z.ltb_lt in H2.
  exists c, b. repeat split; try (apply Z.eqb_neq; lia); try (apply Z.leb_le; lia);
    apply Z.ltb_lt; lia.
Qed.

Lemma fs_lookup_write_other (path q : string) (f : CacheFile) (fs : FS) :
  q <> path -> fs_lookup q (fs_write path f fs) = fs_lookup q fs.
Proof.
  intros Hne. induction fs as [|[p f'] r IH]; simpl.
  - apply String.eqb_neq in Hne. now rewrite Hne.
  - destruct (String.eqb_spec path p) as [->|_]; simpl.
    + apply String.eqb_neq in Hne. now rewrite Hne.
    + now rewrite IH.
Qed.

Lemma ends_with_append (k suf : string) : ends_with suf (k ++ suf) = true.
Proof.
  induction k as [|c k IH]; cbn [append].
  - destruct suf as [|a s]; [reflexivity|]. cbn [ends_with].
    now rewrite String.eqb_refl.
  - cbn [ends_with]. now rewrite IH, orb_true_r.
Qed.

Lemma cache_path_glob (key : string) : glob_docs_json (get_cache_path key) = true.
Proof. unfold glob_docs_json, get_cache_path. simpl. apply ends_with_append. Qed.

Lemma fs_lookup_filter (q : string) (g : string -> bool) (fs : FS) :
  fs_lookup q (filter (fun e => g (fst e)) fs) = if g q then fs_lookup q fs else None.
Proof.
  induction fs as [|[p f] r IH]; simpl; [now destruct (g q)|].
  destruct (g p) eqn:Eg; simpl; destruct (String.eqb_spec q p) as [->|_].
  - now rewrite Eg.
  - exact IH.
  - now rewrite IH, Eg.
  - exact IH.
Qed.

(** X9: [_fetch_from_api] makes one, two or three requests, with a sleep of
    1s after the first and 2s after the second when it goes on, and never
    reaches the final "Failed after max retries" raise. *)
Theorem fetch_from_api_bounded (resp : Z -> Response) :
  exists n, (1 <= n <= 3)%nat /\
    snd (fetch_from_api resp) =
      firstn (2 * n - 1) [Urlopen 0; Sleep 1; Urlopen 1; Sleep 2; Urlopen 2] /\
    forall d, fst (fetch_from_api resp) <> Exc (GranolaParseError MsgMaxRetries d).
Proof.
  unfold fetch_from_api. simpl.
  destruct (resp 0%Z) as [[d0|]|c0 b0| |]; destruct (resp 1%Z) as [[d1|]|c1 b1| |];
    destruct (resp 2%Z) as [[d2|]|c2 b2| |]; simpl;
    repeat (match goal with |- context [if ?c then _ else _] => destruct c end; simpl);
    first [ exists 1%nat; split; [lia | split; [reflexivity | intros d; discriminate]]
          | exists 2%nat; split; [lia | split; [reflexivity | intros d; discriminate]]
          | exists 3%nat; split; [lia | split; [reflexivity | intros d; discriminate]] ].
Qed.

(** X10: a response that is not retried (a parsed body, an unparsable body, a
    4xx other than 429, any status outside 5xx, or an unexpected exception)
    ends the retry loop at that attempt, after that single request and with
    no sleep, whatever attempts remain. *)
Theorem no_retry_on_final_response (resp : Z -> Response) (attempt : Z) (more : list Z) :
  retryable (resp attempt) = false ->
  exists r, fetch_loop resp (attempt :: more) = (r, [Urlopen attempt]).
Proof.
  intros H. cbn [fetch_loop]. destruct (resp attempt) as [[d|]|c b| |]; simpl in H;
    try discriminate; try (eexists; reflexivity).
  destruct (Z.eqb_spec c 401); [eexists; reflexivity|].
  destruct (Z.eqb_spec c 403); [eexists; reflexivity|].
  apply orb_false_iff in H as [H1 H2]. rewrite H1, H2. eexists; reflexivity.
Qed.

(** X11: a 429, a 5xx or a network error at an attempt before the last one
    is followed by a sleep of [2 ^ attempt] seconds and the next attempt,
    whose result the loop returns. *)
Theorem retry_then_next_attempt (resp : Z -> Response) (attempt : Z) (more : list Z) :
  retryable (resp attempt) = true -> (attempt < max_retries - 1)%Z ->
  fetch_loop resp (attempt :: more) =
    (fst (fetch_loop resp more),
     Urlopen attempt :: Sleep (2 ^ attempt) :: snd (fetch_loop resp more)).
Proof.
  intros H Hlt. apply Z.ltb_lt in Hlt. change (max_retries - 1)%Z with 2%Z in Hlt.
  cbn [fetch_loop].
  destruct (retryable_cases _ H) as [E | [(b & E) | (c & b & E & E1 & E2 & E3 & E4 & E5)]];
    rewrite E; simpl; rewrite ?E1, ?E2, ?E3, ?E4, ?E5; simpl; rewrite Hlt;
    destruct (fetch_loop resp more); reflexivity.
Qed.

(** X12: when the three responses are all 429, 5xx or network errors,
    [_fetch_from_api] makes the three requests with sleeps of 1s and 2s and
    raises a [GranolaParseError] whose details give attempt 3 and, for an
    HTTP error, the status of the third response. *)
Theorem exhausted_retries_report_last_attempt (resp : Z -> Response) :
  (forall i, (0 <= i < 3)%Z -> retryable (resp i) = true) ->
  snd (fetch_from_api resp) = [Urlopen 0; Sleep 1; Urlopen 1; Sleep 2; Urlopen 2] /\
  exists msg d, fst (fetch_from_api resp) = Exc (GranolaParseError msg d) /\
    dget "attempt" d = JNum 3 /\
    (forall c b, resp 2%Z = RespHTTPError c b -> dget "status" d = JNum c).
Proof.
  intros H. unfold fetch_from_api. simpl.
  destruct (retryable_cases _ (H 0%Z ltac:(lia)))
    as [E0 | [(b0 & E0) | (c0 & b0 & E0 & F01 & F02 & F03 & F04 & F05)]];
  destruct (retryable_cases _ (H 1%Z ltac:(lia)))
    as [E1 | [(b1 & E1) | (c1 & b1 & E1 & F11 & F12 & F13 & F14 & F15)]];
  destruct (retryable_cases _ (H 2%Z ltac:(lia)))
    as [E2 | [(b2 & E2) | (c2 & b2 & E2 & F21 & F22 & F23 & F24 & F25)]];
  rewrite E0, E1, E2; simpl;
  rewrite ?F01, ?F02, ?F03, ?F04, ?F05, ?F11, ?F12, ?F13, ?F14, ?F15,
          ?F21, ?F22, ?F23, ?F24, ?F25; simpl;
  (split; [reflexivity|]; eexists _, _; split; [reflexivity|]; split; [reflexivity|];
   intros c b Hc; inversion Hc; subst; reflexivity).
Qed.

(** X13: with [force=True], [get_documents] returns the same result and
    makes the same requests whatever the cache directory holds. *)
Theorem forced_get_documents_ignores_cache (sha : string -> string) (ttl : Z)
  (fs1 fs2 : FS) (now : Z) (resp : Z -> Response) (w : WriteOutcome)
  (limit offset : option Z) (panel : bool) :
  fst (fst (get_documents sha ttl fs1 now resp w limit offset panel true)) =
    fst (fst (get_documents sha ttl fs2 now resp w limit offset panel true)) /\
  snd (get_documents sha ttl fs1 now resp w limit offset panel true) =
    snd (get_documents sha ttl fs2 now resp w limit offset panel true).
Proof.
  unfold get_documents, cached_docs. simpl negb. cbn iota.
  unfold fetch_and_store. destruct (fetch_from_api resp) as [[data|e] evs];
    [destruct (docs_of data)|]; split; reflexivity.
Qed.

(** X14: writing the cache is best effort: whether [_write_cache] succeeds,
    fails to open the file, or fails while writing, [get_documents] returns
    the same result with the same requests. *)
Theorem cache_write_failure_not_observed (sha : string -> string) (ttl : Z)
  (fs : FS) (now : Z) (resp : Z -> Response) (w1 w2 : WriteOutcome)
  (limit offset : option Z) (panel force : bool) :
  fst (fst (get_documents sha ttl fs now resp w1 limit offset panel force)) =
    fst (fst (get_documents sha ttl fs now resp w2 limit offset panel force)) /\
  snd (get_documents sha ttl fs now resp w1 limit offset panel force) =
    snd (get_documents sha ttl fs now resp w2 limit offset panel force).
Proof.
  unfold get_documents.
  destruct (cached_docs ttl fs now _ force); [split; reflexivity|].
  unfold fetch_and_store. destruct (fetch_from_api resp) as [[data|e] evs];
    [destruct (docs_of data)|]; split; reflexivity.
Qed.

(** X15: [get_documents] changes at most the cache file of its own
    (normalized) parameters: every other file of the cache directory is
    left as it was. *)
Theorem get_documents_frame (sha : string -> string) (ttl : Z) (fs : FS) (now : Z)
  (resp : Z -> Response) (w : WriteOutcome) (limit offset : option Z)
  (panel force : bool) (q : string) :
  q <> docs_path sha limit offset panel ->
  fs_lookup q (snd (fst (get_documents sha ttl fs now resp w limit offset panel force))) =
    fs_lookup q fs.
Proof.
  intros Hq. unfold get_documents.
  change (get_cache_path (get_cache_key sha (int_or limit 100) (int_or offset 0) panel))
    with (docs_path sha limit offset panel).
  destruct (cached_docs ttl fs now _ force); [reflexivity|].
  unfold fetch_and_store. destruct (fetch_from_api resp) as [[data|e] evs]; [|reflexivity].
  assert (Hw : fs_lookup q (write_cache fs now (docs_path sha limit offset panel) data w)
               = fs_lookup q fs)
    by (destruct w; simpl; try apply fs_lookup_write_other; auto).
  destruct (docs_of data); exact Hw.
Qed.



(** X18: after a [refresh_cache] in which no unlink fails, the next
    [get_documents], with any parameters and [force=False] or not, starts
    with an HTTP request. *)
Theorem refresh_forces_refetch (fs : FS) (unlink_ok : string -> bool)
  (sha : string -> string) (ttl : Z) (now : Z) (resp : Z -> Response)
  (w : WriteOutcome) (limit offset : option Z) (panel force : bool) :
  (forall name, unlink_ok name = true) ->
  exists r fs' evs,
    get_documents sha ttl (refresh_cache fs unlink_ok) now resp w limit offset panel force
      = (r, fs', Urlopen 0 :: evs).
Proof.
  intros Hok. unfold get_documents.
  change (get_cache_path (get_cache_key sha (int_or limit 100) (int_or offset 0) panel))
    with (docs_path sha limit offset panel).
  rewrite (RemoteFacts.cached_docs_unusable ttl _ now _ force).
  - apply RemoteFacts.fetch_and_store_request.
  - right. left. unfold refresh_cache.
    rewrite (fs_lookup_filter _ (fun n => negb (glob_docs_json n && unlink_ok n))), Hok.
    unfold docs_path. now rewrite cache_path_glob.
Qed.

End RemoteMore.

(** ** Instances of the further properties *)

Lemma get_meeting_by_id_lookup_witness :
  a_cache adapter_e1 = Some (load_cache repr_any [doc_e1]) /\
  adapter_get_meeting_by_id repr_any adapter_e1 (Remote.Ret []) 1 "e1" =
    (Remote.Ret (match last_with_key repr_any "e1" [doc_e1] with
                 | Some d => normalize repr_any "e1" d
                 | None => None
                 end), adapter_e1, []).
Proof.
  split; [reflexivity|].
  apply (get_meeting_by_id_lookup repr_any adapter_e1 [doc_e1] (Remote.Ret []) 1 "e1").
  reflexivity.
Defined.

Lemma participants_unique_creator_first_witness :
  NoDup (extract_participants repr_any (JObj people_creator_attends)) /\
  (forall c, dget_default "creator" people_creator_attends (JObj []) = JObj c ->
             truthy (name_or_email c) = true ->
             hd_error (extract_participants repr_any (JObj people_creator_attends)) =
               Some (py_str repr_any (name_or_email c))) /\
  (forall a s, In (JObj a) [JObj [("name", JStr "Alice")];
                            JObj [("email", JStr "bob@example.com")]; JNull] ->
               name_or_email a = JStr s -> s <> "" ->
               In s (extract_participants repr_any (JObj people_creator_attends))).
Proof.
  apply (participants_unique_creator_first repr_any people_creator_attends).
  - reflexivity.
  - intros a Ha Ht. simpl in Ha.
    destruct Ha as [Ha|[Ha|[Ha|[]]]]; inversion Ha; subst a; eexists; reflexivity.
Defined.

Lemma load_cache_memoized_witness :
  adapter_load_cache repr_any adapter_empty (Remote.Ret [doc_e1]) 0 false =
    (Remote.Ret (load_cache repr_any [doc_e1]), adapter_e1, [CallGetAllDocuments false]) /\
  adapter_load_cache repr_any adapter_e1 (Remote.Ret []) 5 false =
    (Remote.Ret (load_cache repr_any [doc_e1]), adapter_e1, []) /\
  a_cache adapter_e1 = Some (load_cache repr_any [doc_e1]).
Proof.
  split; [reflexivity|].
  apply (load_cache_memoized repr_any adapter_empty adapter_e1 (Remote.Ret [doc_e1])
           (Remote.Ret []) 0 5 false _ [CallGetAllDocuments false]).
  reflexivity.
Defined.

Lemma failed_reload_keeps_snapshot_witness :
  a_cache adapter_e1 = Some (load_cache repr_any [doc_e1]) /\
  adapter_reload repr_any adapter_e1 (Remote.Exc Remote.AttributeError) 1 =
    (Remote.Exc Remote.AttributeError, adapter_e1, [CallGetAllDocuments true]) /\
  adapter_get_meetings repr_any adapter_e1 (Remote.Ret []) 2 =
    (Remote.Ret (get_meetings repr_any (load_cache repr_any [doc_e1])), adapter_e1, []).
Proof.
  split; [reflexivity|].
  apply (failed_reload_keeps_snapshot repr_any adapter_e1 (load_cache repr_any [doc_e1])
           Remote.AttributeError 1 2 (Remote.Ret [])).
  reflexivity.
Defined.

Lemma cache_info_meeting_count_witness :
  a_cache adapter_e1 = Some (load_cache repr_any [doc_e1]) /\
  dfind "meeting_count" (adapter_get_cache_info (fun _ => "1970-01-01T00:00:00") adapter_e1 []) =
    Some (JNum (Z.of_nat (length (get_meetings repr_any (load_cache repr_any [doc_e1])) +
                          length (filter (fun kd => negb (admitted kd))
                                         (documents (load_cache repr_any [doc_e1])))))) /\
  dfind "valid_structure"
    (adapter_get_cache_info (fun _ => "1970-01-01T00:00:00") adapter_e1 []) = Some (JBool true).
Proof.
  split; [reflexivity|].
  apply (cache_info_meeting_count repr_any (fun _ => "1970-01-01T00:00:00") adapter_e1
           (load_cache repr_any [doc_e1]) []).
  reflexivity.
Defined.

Module RemoteMoreWitnesses.
Import Remote.

Lemma no_retry_on_final_response_witness :
  retryable (RespHTTPError 404 "not found") = false /\
  exists r, fetch_loop (fun _ => RespHTTPError 404 "not found") [0; 1; 2]%Z = (r, [Urlopen 0]).
Proof.
  split; [reflexivity|].
  apply (RemoteMore.no_retry_on_final_response (fun _ => RespHTTPError 404 "not found") 0 [1; 2]%Z).
  reflexivity.
Defined.

Lemma retry_then_next_attempt_witness :
  retryable (RespHTTPError 503 "") = true /\ (0 < max_retries - 1)%Z /\
  fetch_loop (fun a => if (a <? 1)%Z then RespHTTPError 503 "" else RespBody (Some (JObj [])))
    [0; 1; 2]%Z =
    (fst (fetch_loop (fun a => if (a <? 1)%Z then RespHTTPError 503 ""
                               else RespBody (Some (JObj []))) [1; 2]%Z),
     Urlopen 0 :: Sleep (2 ^ 0)
       :: snd (fetch_loop (fun a => if (a <? 1)%Z then RespHTTPError 503 ""
                                    else RespBody (Some (JObj []))) [1; 2]%Z)).
Proof.
  split; [reflexivity|]. split; [unfold max_retries; lia|].
  apply (RemoteMore.retry_then_next_attempt
           (fun a => if (a <? 1)%Z then RespHTTPError 503 "" else RespBody (Some (JObj [])))
           0 [1; 2]%Z);
    [reflexivity | unfold max_retries; lia].
Defined.

Lemma exhausted_retries_report_last_attempt_witness :
  snd (fetch_from_api (fun _ => RespHTTPError 503 "busy")) =
    [Urlopen 0; Sleep 1; Urlopen 1; Sleep 2; Urlopen 2] /\
  exists msg d, fst (fetch_from_api (fun _ => RespHTTPError 503 "busy")) =
                  Exc (GranolaParseError msg d) /\
    dget "attempt" d = JNum 3 /\
    (forall c b, RespHTTPError 503 "busy" = RespHTTPError c b -> dget "status" d = JNum c).
Proof.
  apply (RemoteMore.exhausted_retries_report_last_attempt (fun _ => RespHTTPError 503 "busy")).
  intros i Hi. reflexivity.
Defined.

Lemma get_documents_frame_witness :
  "notes.txt" <> docs_path (fun s => s) None None true /\
  fs_lookup "notes.txt"
    (snd (fst (get_documents (fun s => s) 86400 [("notes.txt", {| mtime := 0; contents := None |})]
                 10 resp_docs_not_list WriteOk None None true false))) =
    fs_lookup "notes.txt" [("notes.txt", {| mtime := 0; contents := None |})].
Proof.
  split; [apply String.eqb_neq; vm_compute; reflexivity|].
  apply (RemoteMore.get_documents_frame (fun s => s) 86400
           [("notes.txt", {| mtime := 0; contents := None |})] 10 resp_docs_not_list WriteOk
           None None true false "notes.txt").
  apply String.eqb_neq. vm_compute. reflexivity.
Defined.

Lemma refresh_forces_refetch_witness :
  (forall name : string, true = true) /\
  exists r fs' evs,
    get_documents (fun s => s) 86400
      (refresh_cache [(docs_path (fun s => s) None None true,
                       {| mtime := 0; contents := Some (JObj [("docs", JArr [])]) |})]
                     (fun _ => true)) 10
      resp_docs_not_list WriteOk None None true false = (r, fs', Urlopen 0 :: evs).
Proof.
  split; [intros name; reflexivity|].
  apply (RemoteMore.refresh_forces_refetch
           [(docs_path (fun s => s) None None true,
             {| mtime := 0; contents := Some (JObj [("docs", JArr [])]) |})]
           (fun _ => true) (fun s => s) 86400 10 resp_docs_not_list WriteOk None None true false).
  intros name. reflexivity.
Defined.

End RemoteMoreWitnesses.
